(** * serve.py: the local wallet-approval development server

    A shallow embedding of [scripts/serve.py].  The script is glue around the
    Python standard library: it reads an optional port from the command line,
    moves into its own directory, insists on [wallet-approval.html] being
    there, binds a [socketserver.TCPServer] with a request handler that adds
    three CORS headers, tries to open a browser and serves until interrupted.

    Everything outside the script (the interpreter's builtins, the operating
    system, the inherited request handler and the network) is gathered in an
    environment record [Env]; the script itself is written in a small
    state-and-exception monad whose state carries the module global [PORT],
    the working directory and the log of observable effects.

    Conventions of the model.  [print], [os.chdir], [os.getcwd] and
    [os.path.exists] always succeed.  Exceptions enter where the environment
    says so: [int] may raise [ValueError], the construction of the server,
    the browser call and [serve_forever] may raise anything (a Ctrl+C at
    that moment is a [KeyboardInterrupt]).  While serving, a finite list of
    requests is answered and then the loop stops, returns, or goes on for
    ever.  The inherited handler is represented by the calls that reach it;
    how it turns them into bytes is not part of this development. *)

From Stdlib Require Import ZArith String Ascii List Bool Lia DecimalString DecimalPos.
Import ListNotations.

Local Open Scope string_scope.
Local Open Scope Z_scope.
Local Open Scope list_scope.

(** ** Python strings and integers *)

Module Py.

Local Open Scope string_scope.

Definition chr (n : nat) : string := String (ascii_of_nat n) EmptyString.

(** The newline character, written [\n] in the source. *)
Definition nl : string := chr 10.

(** [s * n] on a string. *)
Fixpoint str_mul (s : string) (n : nat) : string :=
  match n with
  | O => EmptyString
  | S k => s ++ str_mul s k
  end.

(** [str(n)] and the [{n}] of an f-string, for an integer. *)
Definition str (z : Z) : string := NilZero.string_of_int (Z.to_int z).

(** [needle in hay] on strings. *)
Fixpoint contains (needle hay : string) : bool :=
  if String.prefix needle hay then true
  else match hay with
       | EmptyString => false
       | String _ rest => contains needle rest
       end.

(** *** A decimal reading of [int(text)]

    The builtin itself is a field of the environment ([int_builtin] below),
    because its exact domain belongs to the interpreter.  [int_ascii] is the
    reading the concrete environments of this file use: surrounding
    white space is dropped, one sign is allowed, and the digits may be
    grouped by single underscores; anything else is a [ValueError]. *)

Definition is_space (c : ascii) : bool :=
  let n := nat_of_ascii c in
  ((n =? 32) || ((9 <=? n) && (n <=? 13)))%nat.

Definition digit_of (c : ascii) : option Z :=
  let n := nat_of_ascii c in
  if ((48 <=? n) && (n <=? 57))%nat then Some (Z.of_nat (n - 48)) else None.

Fixpoint lstrip (s : string) : string :=
  match s with
  | String c rest => if is_space c then lstrip rest else s
  | EmptyString => s
  end.

Fixpoint all_space (s : string) : bool :=
  match s with
  | String c rest => is_space c && all_space rest
  | EmptyString => true
  end.

(** The digits after the first one; [acc] is the value read so far. *)
Fixpoint more_digits (acc : Z) (s : string) : option Z :=
  match s with
  | EmptyString => Some acc
  | String c rest =>
      match digit_of c with
      | Some d => more_digits (10 * acc + d) rest
      | None =>
          if Ascii.eqb c "_" then
            match rest with
            | String c' rest' =>
                match digit_of c' with
                | Some d => more_digits (10 * acc + d) rest'
                | None => None
                end
            | EmptyString => None
            end
          else if all_space s then Some acc else None
      end
  end.

Definition unsigned_digits (s : string) : option Z :=
  match s with
  | String c rest =>
      match digit_of c with
      | Some d => more_digits d rest
      | None => None
      end
  | EmptyString => None
  end.

Definition int_ascii (s : string) : option Z :=
  match lstrip s with
  | String "-" rest => option_map Z.opp (unsigned_digits rest)
  | String "+" rest => unsigned_digits rest
  | t => unsigned_digits t
  end.

End Py.

(** ** The request handler

    [Handler] derives from [http.server.SimpleHTTPRequestHandler] and
    overrides [end_headers] only.  The inherited class is library code: what
    it puts on the wire is recorded as [base_call]s, the calls that reach the
    inherited implementations.  A response is produced by a library routine
    ([do_GET], [send_error], [list_directory], ...) that calls methods on
    [self]; those calls are dispatched through the class of the instance, so
    an [end_headers] issued by the library lands in the override. *)

Module Http.

Record request := {
  command : string;           (* GET, HEAD, POST, ... *)
  path : string;
  request_version : string
}.

(** Calls that reach the implementations of the base class. *)
Inductive base_call :=
| StatusLine (code : Z) (message : string)
| HeaderLine (keyword value : string)
| HeadersEnd
| Body (data : string).

(** Calls a library routine makes on [self]. *)
Inductive self_call :=
| send_response_only (code : Z) (message : string)
| send_header (keyword value : string)
| end_headers
| wfile_write (data : string).

Definition routine := list self_call.

(** The handler instance, reduced to what it has sent so far.  A method
    takes the instance and returns it updated. *)
Definition sent := list base_call.

Record handler_class := {
  m_send_header : string -> string -> sent -> sent;
  m_end_headers : sent -> sent
}.

Module Base.
Definition send_header (keyword value : string) (self : sent) : sent :=
  self ++ [HeaderLine keyword value].
Definition end_headers (self : sent) : sent :=
  self ++ [HeadersEnd].
End Base.

(** [class SimpleHTTPRequestHandler], as far as the two methods go. *)
Definition SimpleHTTPRequestHandler : handler_class :=
  {| m_send_header := Base.send_header; m_end_headers := Base.end_headers |}.

(** [Handler.end_headers]: lines 21 to 26.  [Handler] does not override
    [send_header], so [self.send_header] is the inherited one. *)
Definition Handler_end_headers (self : sent) : sent :=
  (* Add CORS headers for wallet compatibility *)
  let self := Base.send_header "Access-Control-Allow-Origin" "*" self in
  let self := Base.send_header "Access-Control-Allow-Methods" "GET, POST, OPTIONS" self in
  let self := Base.send_header "Access-Control-Allow-Headers" "Content-Type" self in
  Base.end_headers self.

(** [class Handler(http.server.SimpleHTTPRequestHandler)]. *)
Definition Handler : handler_class :=
  {| m_send_header := Base.send_header; m_end_headers := Handler_end_headers |}.

Definition dispatch (cls : handler_class) (c : self_call) (self : sent) : sent :=
  match c with
  | send_response_only code message => self ++ [StatusLine code message]
  | send_header keyword value => m_send_header cls keyword value self
  | end_headers => m_end_headers cls self
  | wfile_write data => self ++ [Body data]
  end.

Fixpoint perform (cls : handler_class) (r : routine) (self : sent) : sent :=
  match r with
  | [] => self
  | c :: r' => perform cls r' (dispatch cls c self)
  end.

(** One request handled by a fresh instance of [cls]. *)
Definition respond (cls : handler_class) (r : routine) : sent := perform cls r [].

(** The three header lines of lines 23 to 25, as they reach the base class. *)
Definition cors_lines : list base_call :=
  [ HeaderLine "Access-Control-Allow-Origin" "*";
    HeaderLine "Access-Control-Allow-Methods" "GET, POST, OPTIONS";
    HeaderLine "Access-Control-Allow-Headers" "Content-Type" ].

(** Every header finalization in [s] comes directly after the three lines. *)
Definition cors_before_each_end (s : sent) : Prop :=
  forall before after,
    s = before ++ HeadersEnd :: after ->
    exists earlier, before = earlier ++ cors_lines.

(** The finalized header blocks of what was sent: for each [HeadersEnd],
    the status line that opened the block (if there was one) and the header
    lines since the previous boundary. *)
Definition block := (option (Z * string) * list (string * string))%type.

Fixpoint blocks_from (cur : block) (s : sent) : list block :=
  match s with
  | [] => []
  | StatusLine code message :: s' => blocks_from (Some (code, message), []) s'
  | HeaderLine k v :: s' => blocks_from (fst cur, snd cur ++ [(k, v)]) s'
  | HeadersEnd :: s' => cur :: blocks_from (None, []) s'
  | Body _ :: s' => blocks_from cur s'
  end.

Definition header_blocks (s : sent) : list block := blocks_from (None, []) s.

Definition cors_pairs : list (string * string) :=
  [ ("Access-Control-Allow-Origin", "*");
    ("Access-Control-Allow-Methods", "GET, POST, OPTIONS");
    ("Access-Control-Allow-Headers", "Content-Type") ].

End Http.

(** ** The process: exceptions, effects, environment *)

Module Serve.

(** Python exceptions the script can meet.  [OSError] stands for the class
    and its subclasses; [errno] is [None] when the exception carries none. *)
Inductive exn :=
| KeyboardInterrupt
| SystemExit (code : Z)
| ValueError (msg : string)
| OSError (errno : option Z) (strerror : string)
| OverflowError (msg : string)
| OtherException (name msg : string).

(** [str(e)], as the f-string of line 69 renders it. *)
Definition exn_str (e : exn) : string :=
  match e with
  | KeyboardInterrupt => ""
  | SystemExit code => Py.str code
  | ValueError msg => msg
  | OSError (Some n) strerror => "[Errno " ++ Py.str n ++ "] " ++ strerror
  | OSError None strerror => strerror
  | OverflowError msg => msg
  | OtherException _ msg => msg
  end%string.

(** [e.errno == n]. *)
Definition errno_is (errno : option Z) (n : Z) : bool :=
  match errno with
  | Some m => m =? n
  | None => false
  end.

(** A computation returns, raises, or blocks for ever (the accept loop of a
    server nobody interrupts). *)
Inductive result (A : Type) :=
| Val (a : A)
| Exc (e : exn)
| Blocked.
Arguments Val {A} a.
Arguments Exc {A} e.
Arguments Blocked {A}.

(** What an observer of the process sees, in order. *)
Inductive event :=
| Print (text : string)                       (* one call of print *)
| Chdir (dir : string)                        (* os.chdir *)
| PathExists (cwd name : string)              (* os.path.exists of a relative name *)
| Bind (host : string) (port : Z)             (* TCPServer((host, port), ...) *)
| BrowserOpen (url : string)                  (* webbrowser.open *)
| ServeForever                                (* httpd.serve_forever() entered *)
| Response (cwd directory : string) (req : Http.request) (out : Http.sent)
| ServerClose.                                (* the with block left *)

(** The process state: the module global [PORT], the working directory and
    the effects so far. *)
Record proc := {
  PORT : Z;
  cwd : string;
  log : list event
}.

Inductive browser_result :=
| Returned (launched : bool)
| Raised (e : exn).

(** How [serve_forever] ends. *)
Inductive serve_stop :=
| StopsWith (e : exn)      (* an exception leaves the loop: Ctrl+C is [KeyboardInterrupt] *)
| Shutdown                 (* the loop returns *)
| Never.                   (* it keeps serving *)

(** Everything outside the script. *)
Record Env := {
  argv : list string;                          (* sys.argv *)
  int_builtin : string -> option Z;            (* int(text); None is ValueError *)
  invocation_dir : string;                     (* the caller's working directory *)
  script_dir : string;                         (* os.path.dirname(os.path.abspath(__file__)) *)
  file_exists : string -> string -> bool;      (* directory, relative name *)
  EADDRINUSE : Z;                              (* errno.EADDRINUSE of the platform *)
  os_bind : string -> Z -> option exn;         (* binding and listening; None is success *)
  webbrowser_open : string -> browser_result;
  traffic : list Http.request;                 (* requests that arrive while serving *)
  library_routine : string -> string -> Http.request -> Http.routine;
                                               (* what the inherited handler does for a
                                                  request, given cwd and directory *)
  serve_end : serve_stop
}.

(** *** The monad *)

Definition M (A : Type) : Type := proc -> result A * proc.

Definition ret {A} (a : A) : M A := fun s => (Val a, s).

Definition bind {A B} (m : M A) (k : A -> M B) : M B :=
  fun s =>
    match m s with
    | (Val a, s') => k a s'
    | (Exc e, s') => (Exc e, s')
    | (Blocked, s') => (Blocked, s')
    end.

Definition raise {A} (e : exn) : M A := fun s => (Exc e, s).

Definition block {A} : M A := fun s => (Blocked, s).

Declare Scope py_scope.
Delimit Scope py_scope with py.
Notation "x <- m ;; k" := (bind m (fun x => k))
  (at level 100, m at next level, right associativity) : py_scope.
Notation "m ;; k" := (bind m (fun _ => k))
  (at level 100, right associativity) : py_scope.
Local Open Scope py_scope.

Definition emit (e : event) : M unit :=
  fun s => (Val tt, {| PORT := PORT s; cwd := cwd s; log := log s ++ [e] |}).

Definition read_PORT : M Z := fun s => (Val (PORT s), s).

Definition assign_PORT (n : Z) : M unit :=
  fun s => (Val tt, {| PORT := n; cwd := cwd s; log := log s |}).

(** [try: body except ...: handler]; [handler e] is [None] when no clause
    matches [e]. *)
Definition try_except {A} (body : M A) (handler : exn -> option (M A)) : M A :=
  fun s =>
    match body s with
    | (Exc e, s') =>
        match handler e with
        | Some h => h s'
        | None => (Exc e, s')
        end
    | r => r
    end.

(** The exit of a [with] block: [cleanup] runs however [body] ended, unless
    it never ended. *)
Definition finally {A} (body : M A) (cleanup : M unit) : M A :=
  fun s =>
    match body s with
    | (Val a, s') => (a' <- cleanup ;; ret a) s'
    | (Exc e, s') => (a' <- cleanup ;; raise e) s'
    | (Blocked, s') => (Blocked, s')
    end.

(** *** Builtins and library calls *)

Definition print (text : string) : M unit := emit (Print text).

Definition sys_exit {A} (code : Z) : M A := raise (SystemExit code).

Definition chdir (dir : string) : M unit :=
  fun s => (Val tt, {| PORT := PORT s; cwd := dir; log := log s ++ [Chdir dir] |}).

Definition getcwd : M string := fun s => (Val (cwd s), s).

Record server := {
  server_address : string * Z;
  RequestHandlerClass : Http.handler_class
}.

(** ** The script *)

(** Line 14 and line 15. *)
Definition default_PORT : Z := 8000.
Definition DIRECTORY : string := ".".

Section Script.

Variable env : Env.

(** [int(text)]. *)
Definition int (text : string) : M Z :=
  match int_builtin env text with
  | Some n => ret n
  | None => raise (ValueError "invalid literal for int() with base 10")
  end.

(** [os.path.exists(name)] for a relative [name]: the operating system
    resolves it against the working directory of the moment. *)
Definition path_exists (name : string) : M bool :=
  d <- getcwd ;;
  emit (PathExists d name) ;;
  ret (file_exists env d name).

(** Why binding [(host, port)] fails, if it does.  The socket layer refuses
    a port outside 0..65535 with an [OverflowError]; otherwise the
    operating system decides. *)
Definition bind_failure (host : string) (port : Z) : option exn :=
  if (port <? 0) || (65535 <? port)
  then Some (OverflowError "bind(): port must be 0-65535.")
  else os_bind env host port.

(** [socketserver.TCPServer((host, port), cls)]: the constructor binds and
    listens. *)
Definition TCPServer (host : string) (port : Z) (cls : Http.handler_class) : M server :=
  emit (Bind host port) ;;
  match bind_failure host port with
  | Some e => raise e
  | None => ret {| server_address := (host, port); RequestHandlerClass := cls |}
  end.

Definition server_close : M unit := emit ServerClose.

(** [with socketserver.TCPServer(...) as httpd: body]. *)
Definition with_TCPServer {A} (host : string) (port : Z) (cls : Http.handler_class)
    (body : server -> M A) : M A :=
  httpd <- TCPServer host port cls ;;
  finally (body httpd) server_close.

(** [webbrowser.open(url)]. *)
Definition browser_open (url : string) : M bool :=
  emit (BrowserOpen url) ;;
  match webbrowser_open env url with
  | Returned launched => ret launched
  | Raised e => raise e
  end.

(** One request: a fresh instance of the handler class runs the library
    routine for it.  [Handler.__init__] (lines 18 and 19) passes
    [directory=DIRECTORY], so files are looked up under ["."], relative to
    the working directory of the moment. *)
Definition handle_request (httpd : server) (req : Http.request) : M unit :=
  d <- getcwd ;;
  emit (Response d DIRECTORY req
          (Http.respond (RequestHandlerClass httpd) (library_routine env d DIRECTORY req))).

Fixpoint handle_all (httpd : server) (reqs : list Http.request) : M unit :=
  match reqs with
  | [] => ret tt
  | req :: rest => handle_request httpd req ;; handle_all httpd rest
  end.

(** [httpd.serve_forever()]. *)
Definition serve_forever (httpd : server) : M unit :=
  emit ServeForever ;;
  handle_all httpd (traffic env) ;;
  match serve_end env with
  | StopsWith e => raise e
  | Shutdown => ret tt
  | Never => block
  end.

(** [main()]: lines 28 to 69. *)
Definition main : M unit :=
  (* Change to the script directory *)
  let script_dir := script_dir env in
  chdir script_dir ;;
  (* Check if wallet-approval.html exists *)
  found <- path_exists "wallet-approval.html" ;;
  (if negb found then
     print "❌ Error: wallet-approval.html not found in current directory" ;;
     d <- getcwd ;;
     print ("   Current directory: " ++ d)%string ;;
     sys_exit 1
   else ret tt) ;;
  try_except
    (port <- read_PORT ;;
     with_TCPServer "" port Http.Handler (fun httpd =>
       port <- read_PORT ;;
       let url := ("http://localhost:" ++ Py.str port ++ "/wallet-approval.html")%string in
       print "🚀 Starting local development server..." ;;
       d <- getcwd ;;
       print ("📁 Serving files from: " ++ d)%string ;;
       port <- read_PORT ;;
       print ("🌐 Server running at: http://localhost:" ++ Py.str port)%string ;;
       print ("🔗 Wallet interface: " ++ url)%string ;;
       print "" ;;
       print "✅ This should fix MetaMask detection issues!" ;;
       print "💡 Press Ctrl+C to stop the server" ;;
       print "" ;;
       (* Try to open browser automatically *)
       try_except
         (browser_open url ;;
          print "🌐 Opening browser automatically...")
         (fun _ => Some (print ("⚠️  Please manually open:" ++ " " ++ url)%string)) ;;
       print (Py.nl ++ Py.str_mul "=" 50)%string ;;
       serve_forever httpd))
    (fun e =>
       match e with
       | KeyboardInterrupt =>
           Some (print (Py.nl ++ Py.nl ++ "👋 Server stopped. Goodbye!")%string)
       | OSError errno _ =>
           Some (if errno_is errno 48 then   (* Address already in use *)
                   port <- read_PORT ;;
                   print ("❌ Port " ++ Py.str port
                           ++ " is already in use. Try a different port:")%string ;;
                   port <- read_PORT ;;
                   print ("   python3 serve.py " ++ Py.str (port + 1))%string
                 else
                   print ("❌ Error starting server: " ++ exn_str e)%string)
       | _ => None
       end).

(** The module body under [if __name__ == "__main__":], lines 71 to 78. *)
Definition script : M unit :=
  (* Allow custom port as command line argument *)
  (if (1 <? length (argv env))%nat then
     try_except
       (n <- int (nth 1 (argv env) "") ;;
        assign_PORT n)
       (fun e =>
          match e with
          | ValueError _ => Some (print "❌ Invalid port number. Using default port 8000.")
          | _ => None
          end)
   else ret tt) ;;
  main.

(** The process at its start. *)
Definition start : proc :=
  {| PORT := default_PORT; cwd := invocation_dir env; log := [] |}.

Definition run : result unit * proc := script start.

End Script.

(** How the process ends: with an exit status, with a traceback for an
    exception nobody caught, or not at all. *)
Inductive outcome :=
| Exit (status : Z)
| Traceback (e : exn)
| StillServing.

Definition outcome_of (r : result unit) : outcome :=
  match r with
  | Val _ => Exit 0
  | Exc (SystemExit code) => Exit code
  | Exc e => Traceback e
  | Blocked => StillServing
  end.

(** The exit status the caller of the process receives; the interpreter
    ends with status 1 after printing a traceback. *)
Definition exit_status (o : outcome) : option Z :=
  match o with
  | Exit status => Some status
  | Traceback _ => Some 1
  | StillServing => None
  end.

Definition outcome_of_run (env : Env) : outcome := outcome_of (fst (run env)).
Definition log_of_run (env : Env) : list event := log (snd (run env)).
Definition port_of_run (env : Env) : Z := PORT (snd (run env)).

End Serve.

(** * Properties *)

(** ** Integers in and out of text *)

Module PyFacts.
Import Py.
Local Open Scope string_scope.

Ltac eval_digit :=
  match goal with
  | |- context [digit_of ?c] =>
      let v := eval vm_compute in (digit_of c) in change (digit_of c) with v
  end.

Lemma more_digits_pos (d : Decimal.uint) :
  forall a : positive,
    more_digits (Z.pos a) (NilEmpty.string_of_uint d)
    = Some (Z.pos (Pos.of_uint_acc d a)).
Proof.
  induction d; intros a; cbn [NilEmpty.string_of_uint Pos.of_uint_acc];
    try reflexivity;
    (cbn [more_digits]; eval_digit; cbv beta iota; rewrite <- IHd; f_equal; lia).
Qed.

Lemma more_digits_zero (d : Decimal.uint) :
  more_digits 0 (NilEmpty.string_of_uint d) = Some (Z.of_N (Pos.of_uint d)).
Proof.
  induction d; cbn [NilEmpty.string_of_uint Pos.of_uint]; try reflexivity;
    cbn [more_digits]; eval_digit; cbv beta iota;
    first [exact IHd | apply more_digits_pos].
Qed.

Lemma unsigned_digits_uint (d : Decimal.uint) :
  d <> Decimal.Nil ->
  unsigned_digits (NilEmpty.string_of_uint d) = Some (Z.of_N (Pos.of_uint d)).
Proof.
  destruct d; intros N; try (now contradiction N);
    cbn [NilEmpty.string_of_uint Pos.of_uint unsigned_digits]; eval_digit; cbv beta iota;
    first [apply more_digits_zero | apply more_digits_pos].
Qed.

Lemma string_of_uint_nonnil (d : Decimal.uint) :
  d <> Decimal.Nil -> NilZero.string_of_uint d = NilEmpty.string_of_uint d.
Proof. destruct d; intros N; try reflexivity. now contradiction N. Qed.

Lemma int_ascii_uint (d : Decimal.uint) :
  int_ascii (NilEmpty.string_of_uint d) = unsigned_digits (NilEmpty.string_of_uint d).
Proof. now destruct d. Qed.

(** [int(str(z)) == z]: the decimal reading takes back what [str] wrote. *)
Lemma int_ascii_str (z : Z) : int_ascii (str z) = Some z.
Proof.
  destruct z as [|p|p]; [reflexivity| |]; unfold str;
    cbn [Z.to_int NilZero.string_of_int];
    rewrite string_of_uint_nonnil by apply Unsigned.to_uint_nonnil.
  - rewrite int_ascii_uint.
    rewrite unsigned_digits_uint by apply Unsigned.to_uint_nonnil.
    now rewrite Unsigned.of_to.
  - change (int_ascii (String "-" ?s)) with (option_map Z.opp (unsigned_digits s)).
    rewrite unsigned_digits_uint by apply Unsigned.to_uint_nonnil.
    now rewrite Unsigned.of_to.
Qed.

Lemma str_inj (a b : Z) : str a = str b -> a = b.
Proof.
  intros E. apply (f_equal int_ascii) in E.
  rewrite !int_ascii_str in E. now injection E.
Qed.

Lemma length_append (a b : string) :
  String.length (a ++ b) = (String.length a + String.length b)%nat.
Proof. induction a as [|c a IH]; cbn; [reflexivity | now rewrite IH]. Qed.

Lemma append_cancel_r (s a b : string) : a ++ s = b ++ s -> a = b.
Proof.
  intros E.
  assert (L : String.length a = String.length b).
  { apply (f_equal String.length) in E. rewrite !length_append in E. lia. }
  revert b E L. induction a as [|c a IH]; intros [|c' b] E L; try discriminate L.
  - reflexivity.
  - cbn in E. injection E as -> E. f_equal. apply IH; [assumption|]. now injection L.
Qed.

End PyFacts.

(** ** The handler: what every response carries *)

Module HttpFacts.
Import Http.

(** What one call on [self] adds when the instance is a [Handler]. *)
Definition added (c : self_call) : sent :=
  match c with
  | send_response_only code message => [StatusLine code message]
  | send_header keyword value => [HeaderLine keyword value]
  | end_headers => cors_lines ++ [HeadersEnd]
  | wfile_write data => [Body data]
  end.

Lemma dispatch_Handler (c : self_call) (self : sent) :
  dispatch Handler c self = self ++ added c.
Proof.
  destruct c; cbn; try reflexivity.
  unfold Handler_end_headers, Base.end_headers, Base.send_header.
  now rewrite <- !app_assoc.
Qed.

Lemma perform_Handler (r : routine) :
  forall self, perform Handler r self = self ++ flat_map added r.
Proof.
  induction r as [|c r IH]; intros self; cbn [perform flat_map].
  - now rewrite app_nil_r.
  - now rewrite IH, dispatch_Handler, <- app_assoc.
Qed.

Lemma respond_Handler (r : routine) : respond Handler r = flat_map added r.
Proof. unfold respond. now rewrite perform_Handler. Qed.

(** The ordering property survives one more call, provided a finalization
    is only ever appended right after the three lines. *)
Lemma cors_before_each_end_snoc (s : sent) (x : base_call) :
  cors_before_each_end s ->
  (x = HeadersEnd -> exists earlier, s = earlier ++ cors_lines) ->
  cors_before_each_end (s ++ [x]).
Proof.
  intros Hs Hx before after.
  destruct after as [|y after _] using rev_ind; intros E.
  - apply app_inj_tail in E as [-> ->]. now apply Hx.
  - change (before ++ HeadersEnd :: after ++ [y])
      with (before ++ (HeadersEnd :: after) ++ [y]) in E.
    rewrite app_assoc in E.
    apply app_inj_tail in E as [-> _].
    now apply (Hs before after).
Qed.

Lemma cors_before_each_end_added (s : sent) (c : self_call) :
  cors_before_each_end s -> cors_before_each_end (s ++ added c).
Proof.
  intros Hs.
  destruct c; cbn [added];
    try (apply cors_before_each_end_snoc; [assumption | discriminate]).
  unfold cors_lines. cbn [app].
  change (s ++ [?a; ?b; ?c; HeadersEnd]) with (s ++ [a; b; c] ++ [HeadersEnd]).
  rewrite app_assoc.
  apply cors_before_each_end_snoc.
  - change (s ++ [?a; ?b; ?c]) with (s ++ [a; b] ++ [c]). rewrite app_assoc.
    apply cors_before_each_end_snoc; [|discriminate].
    change (s ++ [?a; ?b]) with (s ++ [a] ++ [b]). rewrite app_assoc.
    apply cors_before_each_end_snoc; [|discriminate].
    apply cors_before_each_end_snoc; [assumption | discriminate].
  - intros _. now exists s.
Qed.

Lemma cors_before_each_end_perform (r : routine) :
  forall self,
    cors_before_each_end self -> cors_before_each_end (perform Handler r self).
Proof.
  induction r as [|c r IH]; intros self Hs; cbn [perform].
  - assumption.
  - apply IH. rewrite dispatch_Handler. now apply cors_before_each_end_added.
Qed.

Lemma cors_before_each_end_respond (r : routine) :
  cors_before_each_end (respond Handler r).
Proof.
  apply cors_before_each_end_perform.
  intros before after E. now destruct before.
Qed.

(** Every finalized block of a [Handler] ends with the three pairs. *)
Lemma blocks_of_Handler (r : routine) :
  forall cur b,
    In b (blocks_from cur (flat_map added r)) ->
    exists others, snd b = others ++ cors_pairs.
Proof.
  induction r as [|c r IH]; intros cur b; cbn [flat_map].
  - intros [].
  - destruct c; cbn [added app blocks_from cors_lines]; try apply IH.
    intros [<- | Hb].
    + exists (snd cur). cbn [snd fst]. now rewrite <- !app_assoc.
    + now apply IH in Hb.
Qed.

(** The override is what adds them: the inherited class, given the same
    routine, finalizes the headers without any of the three. *)
Example inherited_class_sends_no_cors :
  respond SimpleHTTPRequestHandler
    [send_response_only 200 "OK"; send_header "Content-type" "text/html"; end_headers]
  = [StatusLine 200 "OK"; HeaderLine "Content-type" "text/html"; HeadersEnd]
  /\ respond Handler
       [send_response_only 200 "OK"; send_header "Content-type" "text/html"; end_headers]
     = [StatusLine 200 "OK"; HeaderLine "Content-type" "text/html"]
       ++ cors_lines ++ [HeadersEnd].
Proof. split; reflexivity. Qed.

End HttpFacts.

(** ** The shape of a run *)

Module ServeFacts.
Import Serve.
Local Open Scope py_scope.

Definition required_file : string := "wallet-approval.html".

Definition warning : event :=
  Print "❌ Invalid port number. Using default port 8000.".

Definition wallet_url (port : Z) : string :=
  ("http://localhost:" ++ Py.str port ++ "/wallet-approval.html")%string.

Definition farewell : event :=
  Print (Py.nl ++ Py.nl ++ "👋 Server stopped. Goodbye!")%string.

Definition separator : event := Print (Py.nl ++ Py.str_mul "=" 50)%string.

(** The state after the command line was read. *)
Definition port_after_args (env : Env) : Z :=
  if (1 <? length (argv env))%nat then
    match int_builtin env (nth 1 (argv env) "") with
    | Some n => n
    | None => default_PORT
    end
  else default_PORT.

Definition log_after_args (env : Env) : list event :=
  if (1 <? length (argv env))%nat then
    match int_builtin env (nth 1 (argv env) "") with
    | Some _ => []
    | None => [warning]
    end
  else [].

(** What lines 43 to 50 print. *)
Definition banner (dir : string) (port : Z) : list event :=
  [ Print "🚀 Starting local development server...";
    Print ("📁 Serving files from: " ++ dir)%string;
    Print ("🌐 Server running at: http://localhost:" ++ Py.str port)%string;
    Print ("🔗 Wallet interface: " ++ wallet_url port)%string;
    Print "";
    Print "✅ This should fix MetaMask detection issues!";
    Print "💡 Press Ctrl+C to stop the server";
    Print "" ].

(** The line printed after the browser call. *)
Definition browser_line (env : Env) (url : string) : event :=
  match webbrowser_open env url with
  | Returned _ => Print "🌐 Opening browser automatically..."
  | Raised _ => Print ("⚠️  Please manually open:" ++ " " ++ url)%string
  end.

Definition response_to (env : Env) (dir : string) (req : Http.request) : event :=
  Response dir DIRECTORY req
    (Http.respond Http.Handler (library_routine env dir DIRECTORY req)).

(** What the [except] clauses of lines 62 to 69 do with an exception. *)
Definition except_clauses (port : Z) (e : exn) : result unit * list event :=
  match e with
  | KeyboardInterrupt => (Val tt, [farewell])
  | OSError errno _ =>
      (Val tt,
       if errno_is errno 48 then
         [ Print ("❌ Port " ++ Py.str port
                   ++ " is already in use. Try a different port:")%string;
           Print ("   python3 serve.py " ++ Py.str (port + 1))%string ]
       else [ Print ("❌ Error starting server: " ++ exn_str e)%string ])
  | _ => (Exc e, [])
  end.

Definition at_script_dir (env : Env) (s : proc) (more : list event) : proc :=
  {| PORT := PORT s; cwd := script_dir env; log := log s ++ more |}.

Ltac step :=
  cbv [script main bind ret raise block emit print sys_exit chdir getcwd
       read_PORT assign_PORT try_except finally path_exists int
       with_TCPServer TCPServer server_close browser_open serve_forever
       handle_request start PORT cwd log negb
       RequestHandlerClass at_script_dir].

Ltac tidy := rewrite <- ?app_assoc; cbn [app]; rewrite ?app_nil_r.

Lemma run_after_args (env : Env) :
  run env =
  main env {| PORT := port_after_args env;
              cwd := invocation_dir env;
              log := log_after_args env |}.
Proof.
  unfold run, script, port_after_args, log_after_args, bind at 1.
  destruct (1 <? length (argv env))%nat; [|reflexivity].
  unfold try_except, int, bind at 1.
  now destruct (int_builtin env _).
Qed.

Lemma main_file_missing (env : Env) (s : proc) :
  file_exists env (script_dir env) required_file = false ->
  main env s =
  (Exc (SystemExit 1),
   at_script_dir env s
     [ Chdir (script_dir env);
       PathExists (script_dir env) required_file;
       Print "❌ Error: wallet-approval.html not found in current directory";
       Print ("   Current directory: " ++ script_dir env)%string ]).
Proof.
  unfold required_file. intros H. destruct s as [p c l].
  step. rewrite H. step. now tidy.
Qed.

Lemma main_bind_fails (env : Env) (s : proc) (e : exn) :
  file_exists env (script_dir env) required_file = true ->
  bind_failure env "" (PORT s) = Some e ->
  main env s =
  (fst (except_clauses (PORT s) e),
   at_script_dir env s
     ([ Chdir (script_dir env);
        PathExists (script_dir env) required_file;
        Bind "" (PORT s) ] ++ snd (except_clauses (PORT s) e))).
Proof.
  unfold required_file. intros H B. destruct s as [p c l]. cbn [PORT] in *.
  step. rewrite H. step. rewrite B.
  destruct e as [ | | |errno msg| | ]; step; cbn [except_clauses fst snd];
    try (now tidy).
  destruct (errno_is errno 48); step; now tidy.
Qed.

Lemma handle_all_log (env : Env) (httpd : server) (reqs : list Http.request) :
  RequestHandlerClass httpd = Http.Handler ->
  forall s,
    handle_all env httpd reqs s =
    (Val tt, {| PORT := PORT s; cwd := cwd s;
                log := log s ++ map (response_to env (cwd s)) reqs |}).
Proof.
  intros Hcls.
  induction reqs as [|req reqs IH]; intros s; cbn [handle_all map].
  - unfold ret. rewrite app_nil_r. now destruct s.
  - unfold bind at 1, handle_request, bind at 1, getcwd, emit.
    rewrite IH, Hcls. cbn [PORT cwd log]. unfold response_to. now tidy.
Qed.

(** What follows the successful bind, and how the run ends. *)
Definition served (env : Env) (port : Z) : list event :=
  banner (script_dir env) port
  ++ [ BrowserOpen (wallet_url port); browser_line env (wallet_url port);
       separator; ServeForever ]
  ++ map (response_to env (script_dir env)) (traffic env).

Definition ending (env : Env) (port : Z) : result unit * list event :=
  match serve_end env with
  | StopsWith e =>
      (fst (except_clauses port e), ServerClose :: snd (except_clauses port e))
  | Shutdown => (Val tt, [ServerClose])
  | Never => (Blocked, [])
  end.

Lemma main_bind_succeeds (env : Env) (s : proc) :
  file_exists env (script_dir env) required_file = true ->
  bind_failure env "" (PORT s) = None ->
  main env s =
  (fst (ending env (PORT s)),
   at_script_dir env s
     ([ Chdir (script_dir env);
        PathExists (script_dir env) required_file;
        Bind "" (PORT s) ]
      ++ served env (PORT s) ++ snd (ending env (PORT s)))).
Proof.
  unfold required_file. intros H B. destruct s as [p c l]. cbn [PORT] in *.
  step. rewrite H. step. rewrite B.
  unfold served, ending, browser_line, banner, separator, wallet_url.
  destruct (webbrowser_open env _) as [launched|e0]; step;
    rewrite handle_all_log by reflexivity; cbn [PORT cwd log];
    (destruct (serve_end env) as [e| | ]; step; cbn [fst snd];
     [ destruct e as [ | | |errno msg| | ]; step; cbn [except_clauses fst snd];
       try (now tidy);
       destruct (errno_is errno 48); step; now tidy
     | now tidy
     | now tidy ]).
Qed.

(** The three cases put together: the result of [main] and what it adds to
    the log. *)
Definition main_result (env : Env) (port : Z) : result unit * list event :=
  if file_exists env (script_dir env) required_file then
    match bind_failure env "" port with
    | Some e =>
        (fst (except_clauses port e),
         [ Chdir (script_dir env);
           PathExists (script_dir env) required_file;
           Bind "" port ] ++ snd (except_clauses port e))
    | None =>
        (fst (ending env port),
         [ Chdir (script_dir env);
           PathExists (script_dir env) required_file;
           Bind "" port ] ++ served env port ++ snd (ending env port))
    end
  else
    (Exc (SystemExit 1),
     [ Chdir (script_dir env);
       PathExists (script_dir env) required_file;
       Print "❌ Error: wallet-approval.html not found in current directory";
       Print ("   Current directory: " ++ script_dir env)%string ]).

Lemma main_eq (env : Env) (s : proc) :
  main env s =
  (fst (main_result env (PORT s)),
   at_script_dir env s (snd (main_result env (PORT s)))).
Proof.
  unfold main_result.
  destruct (file_exists env (script_dir env) required_file) eqn:F.
  - destruct (bind_failure env "" (PORT s)) as [e|] eqn:B.
    + now apply main_bind_fails.
    + now apply main_bind_succeeds.
  - now apply main_file_missing.
Qed.

Lemma run_eq (env : Env) :
  run env =
  (fst (main_result env (port_after_args env)),
   {| PORT := port_after_args env;
      cwd := script_dir env;
      log := log_after_args env ++ snd (main_result env (port_after_args env)) |}).
Proof. now rewrite run_after_args, main_eq. Qed.

Lemma port_of_run_eq (env : Env) : port_of_run env = port_after_args env.
Proof. unfold port_of_run. now rewrite run_eq. Qed.

Lemma log_of_run_eq (env : Env) :
  log_of_run env =
  log_after_args env ++ snd (main_result env (port_after_args env)).
Proof. unfold log_of_run. now rewrite run_eq. Qed.

Lemma outcome_of_run_eq (env : Env) :
  outcome_of_run env = outcome_of (fst (main_result env (port_after_args env))).
Proof. unfold outcome_of_run. now rewrite run_eq. Qed.

Lemma log_after_args_cases (env : Env) :
  log_after_args env = [] \/ log_after_args env = [warning].
Proof.
  unfold log_after_args.
  destruct (1 <? length (argv env))%nat; [|now left].
  destruct (int_builtin env _); [now left | now right].
Qed.

(** Membership in an explicit list of events, case by case. *)
Ltac in_cases :=
  repeat match goal with
    | H : In _ (_ ++ _) |- _ => apply in_app_or in H; destruct H as [H|H]
    | H : In _ (_ :: _) |- _ => destruct H as [H|H]
    | H : In _ [] |- _ => destruct H
    | H : In _ (map _ _) |- _ =>
        let req := fresh "req" in
        apply in_map_iff in H; destruct H as (req & H & _)
    end.

Lemma except_clauses_prints (port : Z) (e : exn) (ev : event) :
  In ev (snd (except_clauses port e)) ->
  exists text, ev = Print text /\ ev <> warning.
Proof.
  unfold except_clauses, farewell, warning.
  destruct e as [ | | |errno msg| | ]; cbn [snd]; try (now intros []).
  - intros H; in_cases; subst ev; eexists; split; try reflexivity; discriminate.
  - destruct (errno_is errno 48); intros H; in_cases; subst ev;
      eexists; split; try reflexivity; discriminate.
Qed.

(** An event of [main] is a print other than the warning, or one of the
    six effects, each tied to the script's directory or to the port. *)
Lemma main_events (env : Env) (port : Z) (ev : event) :
  In ev (snd (main_result env port)) ->
  (exists text, ev = Print text /\ ev <> warning)
  \/ ev = Chdir (script_dir env)
  \/ ev = PathExists (script_dir env) required_file
  \/ (ev = Bind "" port
      /\ file_exists env (script_dir env) required_file = true)
  \/ (ev = BrowserOpen (wallet_url port)
      /\ bind_failure env "" port = None)
  \/ ev = ServeForever
  \/ (exists req, ev = response_to env (script_dir env) req /\ In req (traffic env))
  \/ ev = ServerClose.
Proof.
  unfold main_result.
  destruct (file_exists env (script_dir env) required_file) eqn:F.
  - destruct (bind_failure env "" port) as [e|] eqn:B; cbn [fst snd]; intros H.
    + apply in_app_or in H as [H|H].
      * in_cases; subst ev; auto 10.
      * left. now apply except_clauses_prints in H.
    + apply in_app_or in H as [H|H]; [in_cases; subst ev; auto 10|].
      apply in_app_or in H as [H|H].
      * unfold served, banner, browser_line, separator, warning in H.
        apply in_app_or in H as [H|H].
        { left. in_cases; subst ev; eexists; split; try reflexivity; discriminate. }
        apply in_app_or in H as [H|H].
        { destruct H as [H|[H|[H|[H|[]]]]]; subst ev; auto 10; left.
          - destruct (webbrowser_open env _); eexists; split;
              try reflexivity; discriminate.
          - eexists; split; try reflexivity; discriminate. }
        apply in_map_iff in H as (req & <- & Hreq). eauto 12.
      * unfold ending in H.
        destruct (serve_end env) as [e| | ]; cbn [snd] in H.
        { destruct H as [<-|H]; auto 10. left. now apply except_clauses_prints in H. }
        { destruct H as [<-|[]]. auto 10. }
        { destruct H. }
  - cbn [snd]. intros H. unfold warning.
    in_cases; subst ev; auto 10; left; eexists; split; try reflexivity; discriminate.
Qed.

Lemma main_starts_with_chdir (env : Env) (port : Z) :
  exists after,
    snd (main_result env port) = Chdir (script_dir env) :: after.
Proof.
  unfold main_result.
  destruct (file_exists env _ _); [destruct (bind_failure env "" port)|];
    cbn [snd app]; eauto.
Qed.

End ServeFacts.

(** ** Concrete environments *)

Module Scenario.
Import Serve.

Definition scripts : string := "/Users/dev/bundefi-contracts/scripts".

Definition get (p : string) : Http.request :=
  {| Http.command := "GET"; Http.path := p; Http.request_version := "HTTP/1.1" |}.

(** A stand-in for the inherited handler: the page, a listing of the
    directory, and an error for everything else. *)
Definition library (cwd directory : string) (req : Http.request) : Http.routine :=
  if String.eqb (Http.path req) "/wallet-approval.html" then
    [ Http.send_response_only 200 "OK";
      Http.send_header "Content-type" "text/html";
      Http.end_headers;
      Http.wfile_write "<html></html>" ]
  else if String.eqb (Http.path req) "/" then
    [ Http.send_response_only 200 "OK";
      Http.send_header "Content-type" "text/html; charset=utf-8";
      Http.end_headers;
      Http.wfile_write "Directory listing for /" ]
  else
    [ Http.send_response_only 404 "File not found";
      Http.send_header "Connection" "close";
      Http.send_header "Content-Type" "text/html;charset=utf-8";
      Http.end_headers;
      Http.wfile_write "Error response" ].

(** A developer's machine: the page is next to the script, the port is
    free, a browser starts, three requests arrive and then Ctrl+C. *)
Definition laptop (args : list string) : Env :=
  {| argv := "serve.py" :: args;
     int_builtin := Py.int_ascii;
     invocation_dir := "/Users/dev";
     script_dir := scripts;
     file_exists := fun d n =>
       String.eqb d scripts && String.eqb n "wallet-approval.html";
     EADDRINUSE := 48;
     os_bind := fun _ _ => None;
     webbrowser_open := fun _ => Returned true;
     traffic := [get "/wallet-approval.html"; get "/"; get "/missing.js"];
     library_routine := library;
     serve_end := StopsWith KeyboardInterrupt |}.

Definition without_page (env : Env) : Env :=
  {| argv := argv env; int_builtin := int_builtin env;
     invocation_dir := invocation_dir env; script_dir := script_dir env;
     file_exists := fun _ _ => false;
     EADDRINUSE := EADDRINUSE env; os_bind := os_bind env;
     webbrowser_open := webbrowser_open env; traffic := traffic env;
     library_routine := library_routine env; serve_end := serve_end env |}.

(** Another listener holds every port; the platform reports it with its
    own [EADDRINUSE]. *)
Definition port_taken (platform_errno : Z) (env : Env) : Env :=
  {| argv := argv env; int_builtin := int_builtin env;
     invocation_dir := invocation_dir env; script_dir := script_dir env;
     file_exists := file_exists env;
     EADDRINUSE := platform_errno;
     os_bind := fun _ _ =>
       Some (OSError (Some platform_errno) "Address already in use");
     webbrowser_open := webbrowser_open env; traffic := traffic env;
     library_routine := library_routine env; serve_end := serve_end env |}.

Definition no_browser (e : exn) (env : Env) : Env :=
  {| argv := argv env; int_builtin := int_builtin env;
     invocation_dir := invocation_dir env; script_dir := script_dir env;
     file_exists := file_exists env;
     EADDRINUSE := EADDRINUSE env; os_bind := os_bind env;
     webbrowser_open := fun _ => Raised e; traffic := traffic env;
     library_routine := library_routine env; serve_end := serve_end env |}.

(** The six scenarios of the specification, run. *)

Example scenario_1_default_port :
  port_of_run (laptop []) = 8000
  /\ In (Bind "" 8000) (log_of_run (laptop []))
  /\ In (Print "🔗 Wallet interface: http://localhost:8000/wallet-approval.html")
        (log_of_run (laptop []))
  /\ In (BrowserOpen "http://localhost:8000/wallet-approval.html")
        (log_of_run (laptop [])).
Proof. vm_compute. intuition. Qed.

Example scenario_2_unparsable :
  port_of_run (laptop ["abc"]) = 8000
  /\ hd_error (log_of_run (laptop ["abc"]))
     = Some (Print "❌ Invalid port number. Using default port 8000.").
Proof. vm_compute. auto. Qed.

Example scenario_3_port_9000 :
  In (Bind "" 9000) (log_of_run (laptop ["9000"]))
  /\ In (Print "🔗 Wallet interface: http://localhost:9000/wallet-approval.html")
        (log_of_run (laptop ["9000"])).
Proof. vm_compute. intuition. Qed.

Example scenario_4_page_absent :
  run (without_page (laptop []))
  = (Exc (SystemExit 1),
     {| PORT := 8000; cwd := scripts;
        log := [ Chdir scripts;
                 PathExists scripts "wallet-approval.html";
                 Print "❌ Error: wallet-approval.html not found in current directory";
                 Print "   Current directory: /Users/dev/bundefi-contracts/scripts" ] |}).
Proof. reflexivity. Qed.

Example scenario_5_port_taken_errno_48 :
  run (port_taken 48 (laptop []))
  = (Val tt,
     {| PORT := 8000; cwd := scripts;
        log := [ Chdir scripts;
                 PathExists scripts "wallet-approval.html";
                 Bind "" 8000;
                 Print "❌ Port 8000 is already in use. Try a different port:";
                 Print "   python3 serve.py 8001" ] |}).
Proof. reflexivity. Qed.

Example scenario_6_interrupt :
  fst (run (laptop [])) = Val tt
  /\ last (log_of_run (laptop [])) ServeForever
     = Print (Py.nl ++ Py.nl ++ "👋 Server stopped. Goodbye!")%string.
Proof. vm_compute. auto. Qed.

End Scenario.

(** ** The statements of the specification *)

Module ServeSpec.
Import Serve ServeFacts.

(** *** Start-up: the required file *)

(** C2.  If [wallet-approval.html] is not in the serving directory (the
    script's own directory, which is the working directory by then), the
    process prints the error and the working directory, exits with status 1
    and never attempts to bind. *)
Theorem missing_file_exits_1_without_bind (env : Env) :
  file_exists env (script_dir env) required_file = false ->
  outcome_of_run env = Exit 1
  /\ exit_status (outcome_of_run env) = Some 1
  /\ cwd (snd (run env)) = script_dir env
  /\ (exists before,
        (before = [] \/ before = [warning])
        /\ log_of_run env =
           before ++
           [ Chdir (script_dir env);
             PathExists (script_dir env) required_file;
             Print "❌ Error: wallet-approval.html not found in current directory";
             Print ("   Current directory: " ++ script_dir env)%string ])
  /\ (forall host port, ~ In (Bind host port) (log_of_run env)).
Proof.
  intros F.
  assert (R : main_result env (port_after_args env) =
              (Exc (SystemExit 1),
               [ Chdir (script_dir env);
                 PathExists (script_dir env) required_file;
                 Print "❌ Error: wallet-approval.html not found in current directory";
                 Print ("   Current directory: " ++ script_dir env)%string ])).
  { unfold main_result. now rewrite F. }
  rewrite outcome_of_run_eq, log_of_run_eq, run_eq, R. cbn [fst snd cwd outcome_of exit_status].
  repeat split.
  - exists (log_after_args env). split; [apply log_after_args_cases | reflexivity].
  - intros host port.
    destruct (log_after_args_cases env) as [-> | ->]; unfold warning; intros H;
      in_cases; discriminate.
Qed.

Lemma missing_file_exits_1_without_bind_witness :
  file_exists (Scenario.without_page (Scenario.laptop ["9000"]))
    (script_dir (Scenario.without_page (Scenario.laptop ["9000"]))) required_file = false
  /\ outcome_of_run (Scenario.without_page (Scenario.laptop ["9000"])) = Exit 1.
Proof.
  split; [reflexivity|].
  exact (proj1 (missing_file_exits_1_without_bind
                  (Scenario.without_page (Scenario.laptop ["9000"])) eq_refl)).
Defined.

(** *** Start-up: the port *)

(** C3, as stated, fails: the argument [-5] is not a valid positive port,
    yet [int] accepts it, [PORT] becomes -5, the bind is attempted at -5
    and the process ends with the traceback of an [OverflowError]. *)
Lemma negative_port_argument_is_used :
  int_builtin (Scenario.laptop ["-5"]) "-5" = Some (-5)
  /\ port_of_run (Scenario.laptop ["-5"]) = -5
  /\ log_of_run (Scenario.laptop ["-5"])
     = [ Chdir Scenario.scripts;
         PathExists Scenario.scripts "wallet-approval.html";
         Bind "" (-5) ]
  /\ outcome_of_run (Scenario.laptop ["-5"])
     = Traceback (OverflowError "bind(): port must be 0-65535.").
Proof. repeat split. Qed.

(** C3, amended.  When the port argument is missing, or [int] rejects it,
    the port is 8000: [PORT] keeps its default and no bind is attempted
    elsewhere; the warning is printed exactly when an argument was given
    (and rejected). *)
Theorem missing_or_unparsable_port_uses_8000 (env : Env) :
  (length (argv env) <= 1)%nat
  \/ int_builtin env (nth 1 (argv env) "") = None ->
  port_of_run env = 8000
  /\ (forall host port, In (Bind host port) (log_of_run env) -> port = 8000)
  /\ (In warning (log_of_run env) <-> (1 < length (argv env))%nat).
Proof.
  intros H.
  assert (P : port_after_args env = 8000).
  { unfold port_after_args.
    destruct (Nat.ltb_spec 1 (length (argv env))) as [L|L]; [|reflexivity].
    destruct H as [H|H]; [lia | now rewrite H]. }
  assert (W : log_after_args env = if (1 <? length (argv env))%nat then [warning] else []).
  { unfold log_after_args.
    destruct (Nat.ltb_spec 1 (length (argv env))) as [L|L]; [|reflexivity].
    destruct H as [H|H]; [lia | now rewrite H]. }
  rewrite port_of_run_eq, log_of_run_eq, P, W. split; [reflexivity|]. split.
  - intros host port B. apply in_app_or in B as [B|B].
    + destruct (1 <? length (argv env))%nat; unfold warning in B; in_cases; discriminate.
    + apply main_events in B.
      destruct B as [(t & E & _)|[E|[E|[(E & _)|[(E & _)|[E|[(r & E & _)|E]]]]]]];
        try discriminate E.
      now injection E.
  - destruct (Nat.ltb_spec 1 (length (argv env))) as [L|L].
    + split; [intros _; exact L | intros _; now left].
    + split; [|lia]. cbn [app]. intros B. apply main_events in B.
      destruct B as [(t & _ & N)|[E|[E|[(E & _)|[(E & _)|[E|[(r & E & _)|E]]]]]]];
        try discriminate E.
      now contradiction N.
Qed.

Lemma missing_or_unparsable_port_uses_8000_witness :
  ((length (argv (Scenario.laptop ["abc"])) <= 1)%nat
   \/ int_builtin (Scenario.laptop ["abc"])
        (nth 1 (argv (Scenario.laptop ["abc"])) "") = None)
  /\ port_of_run (Scenario.laptop ["abc"]) = 8000.
Proof.
  split; [right; reflexivity|].
  exact (proj1 (missing_or_unparsable_port_uses_8000 (Scenario.laptop ["abc"])
                  (or_intror eq_refl))).
Defined.

(** C4, as stated, fails: with the argument [9000] and the page absent the
    process exits before any bind. *)
Lemma positive_port_without_page_is_never_bound :
  argv (Scenario.without_page (Scenario.laptop ["9000"])) = ["serve.py"; "9000"]
  /\ int_builtin (Scenario.without_page (Scenario.laptop ["9000"])) "9000" = Some 9000
  /\ log_of_run (Scenario.without_page (Scenario.laptop ["9000"]))
     = [ Chdir Scenario.scripts;
         PathExists Scenario.scripts "wallet-approval.html";
         Print "❌ Error: wallet-approval.html not found in current directory";
         Print "   Current directory: /Users/dev/bundefi-contracts/scripts" ]
  /\ outcome_of_run (Scenario.without_page (Scenario.laptop ["9000"])) = Exit 1.
Proof. repeat split. Qed.

(** C4, amended.  For every argument that [int] reads as a positive
    integer [p], given as the single argument, and with the required page
    present: the server attempts to bind the wildcard address at port [p]
    and at no other address; once that bind succeeds, the printed server
    address and wallet URL, and the URL handed to the browser, carry [p]. *)
Theorem positive_port_argument_is_bound (env : Env) (prog text : string) (p : Z) :
  argv env = [prog; text] ->
  int_builtin env text = Some p ->
  0 < p ->
  file_exists env (script_dir env) required_file = true ->
  port_of_run env = p
  /\ In (Bind "" p) (log_of_run env)
  /\ (forall host port, In (Bind host port) (log_of_run env) -> host = "" /\ port = p)
  /\ (bind_failure env "" p = None ->
      In (Print ("🌐 Server running at: http://localhost:" ++ Py.str p)%string)
         (log_of_run env)
      /\ In (Print ("🔗 Wallet interface: http://localhost:" ++ Py.str p
                     ++ "/wallet-approval.html")%string)
            (log_of_run env)
      /\ In (BrowserOpen ("http://localhost:" ++ Py.str p
                           ++ "/wallet-approval.html")%string)
            (log_of_run env)).
Proof.
  intros A I _ F.
  assert (P : port_after_args env = p).
  { unfold port_after_args. rewrite A. cbn. now rewrite I. }
  assert (W : log_after_args env = []).
  { unfold log_after_args. rewrite A. cbn. now rewrite I. }
  rewrite port_of_run_eq, log_of_run_eq, P, W. cbn [app].
  split; [reflexivity|]. split; [|split].
  - unfold main_result. rewrite F.
    destruct (bind_failure env "" p); cbn [snd app]; right; right; now left.
  - intros host port B. apply main_events in B.
    destruct B as [(t & E & _)|[E|[E|[(E & _)|[(E & _)|[E|[(r & E & _)|E]]]]]]];
      try discriminate E.
    injection E as -> ->. now split.
  - intros B. unfold main_result. rewrite F, B. cbn [snd app].
    unfold served, banner, wallet_url. cbn [app].
    repeat split; cbn [In]; repeat (first [left; reflexivity | right]).
Qed.

Lemma positive_port_argument_is_bound_witness :
  (argv (Scenario.laptop ["9000"]) = ["serve.py"; "9000"]
   /\ int_builtin (Scenario.laptop ["9000"]) "9000" = Some 9000
   /\ 0 < 9000
   /\ file_exists (Scenario.laptop ["9000"])
        (script_dir (Scenario.laptop ["9000"])) required_file = true)
  /\ In (Bind "" 9000) (log_of_run (Scenario.laptop ["9000"])).
Proof.
  split; [repeat split|].
  exact (proj1 (proj2 (positive_port_argument_is_bound (Scenario.laptop ["9000"])
                         "serve.py" "9000" 9000 eq_refl eq_refl eq_refl eq_refl))).
Defined.

(** The wallet URL determines the port it was built from. *)
Lemma wallet_url_inj (p q : Z) : wallet_url p = wallet_url q -> p = q.
Proof.
  unfold wallet_url. intros E. cbn [append] in E.
  repeat match type of E with String _ _ = String _ _ => injection E as E end.
  now apply PyFacts.append_cancel_r, PyFacts.str_inj in E.
Qed.

(** With the decimal reading of [int], the argument can be any positive
    integer written out by [str]. *)
Lemma positive_port_written_out_is_bound (env : Env) (prog : string) (p : Z) :
  int_builtin env = Py.int_ascii ->
  argv env = [prog; Py.str p] ->
  0 < p ->
  file_exists env (script_dir env) required_file = true ->
  In (Bind "" p) (log_of_run env).
Proof.
  intros I A P F. rewrite log_of_run_eq.
  assert (E : port_after_args env = p).
  { unfold port_after_args. rewrite A, I. cbn [length Nat.ltb Nat.leb nth].
    now rewrite PyFacts.int_ascii_str. }
  rewrite E. apply in_or_app. right. unfold main_result. rewrite F.
  destruct (bind_failure env "" p); cbn [snd app]; right; right; now left.
Qed.

(** *** Failures while starting *)

(** Where the [except OSError] clause recognises error number 48, both
    lines of the diagnostic are printed, the second one naming the next
    port, and [main] returns. *)
Lemma errno_48_suggests_next_port (env : Env) (msg : string) :
  file_exists env (script_dir env) required_file = true ->
  bind_failure env "" (port_of_run env) = Some (OSError (Some 48) msg) ->
  fst (run env) = Val tt
  /\ exists before,
       log_of_run env =
       before ++
       [ Bind "" (port_of_run env);
         Print ("❌ Port " ++ Py.str (port_of_run env)
                 ++ " is already in use. Try a different port:")%string;
         Print ("   python3 serve.py " ++ Py.str (port_of_run env + 1))%string ].
Proof.
  rewrite port_of_run_eq, log_of_run_eq, run_eq. intros F B.
  unfold main_result. rewrite F, B. cbn [fst snd except_clauses errno_is app].
  rewrite Z.eqb_refl. split; [reflexivity|].
  exists (log_after_args env ++
          [Chdir (script_dir env); PathExists (script_dir env) required_file]).
  now rewrite <- app_assoc.
Qed.

Definition mentions (needle : string) (ev : event) : bool :=
  match ev with
  | Print text => Py.contains needle text
  | _ => false
  end.

(** C5.  The port is held by another listener on a platform whose
    address-in-use error number is 98: the [OSError] fails the test against
    48, so the generic line is printed and nothing mentions port 8001; the
    error is still caught and [main] returns. *)
Theorem port_taken_errno_98_prints_no_suggestion :
  bind_failure (Scenario.port_taken 98 (Scenario.laptop [])) "" 8000
  = Some (OSError (Some (EADDRINUSE (Scenario.port_taken 98 (Scenario.laptop []))))
            "Address already in use")
  /\ run (Scenario.port_taken 98 (Scenario.laptop []))
     = (Val tt,
        {| PORT := 8000; cwd := Scenario.scripts;
           log := [ Chdir Scenario.scripts;
                    PathExists Scenario.scripts "wallet-approval.html";
                    Bind "" 8000;
                    Print "❌ Error starting server: [Errno 98] Address already in use" ] |})
  /\ existsb (mentions "8001") (log_of_run (Scenario.port_taken 98 (Scenario.laptop [])))
     = false
  /\ existsb (mentions "8001") (log_of_run (Scenario.port_taken 48 (Scenario.laptop [])))
     = true.
Proof. repeat split. Qed.

(** *** Exit status *)

(** What ends the [try] block: the failure of the bind, or else the way
    [serve_forever] stops. *)
Definition try_block_end (env : Env) : serve_stop :=
  match bind_failure env "" (port_of_run env) with
  | Some e => StopsWith e
  | None => serve_end env
  end.

(** C6, as stated, fails: a bind failure that is an [OSError] is caught,
    [main] returns and the exit status is 0. *)
Lemma bind_failure_exits_0 :
  try_block_end (Scenario.port_taken 48 (Scenario.laptop []))
  = StopsWith (OSError (Some 48) "Address already in use")
  /\ existsb (fun ev => match ev with ServeForever => true | _ => false end)
       (log_of_run (Scenario.port_taken 48 (Scenario.laptop []))) = false
  /\ outcome_of_run (Scenario.port_taken 48 (Scenario.laptop [])) = Exit 0
  /\ exit_status (outcome_of_run (Scenario.port_taken 48 (Scenario.laptop []))) = Some 0.
Proof. repeat split. Qed.

(** C6, amended.  The exit status is 1 when the required file is missing.
    With the file present it is 0 when serving returns or is interrupted,
    and also 0 when the bind or the serving fails with an [OSError], which
    is caught and only reported; it is non-zero (1, after the traceback)
    for an exception no clause catches, such as the [OverflowError] of a
    port out of range; a [SystemExit] sets its own status, and a server
    nobody stops has none. *)
Theorem exit_status_by_ending (env : Env) :
  (file_exists env (script_dir env) required_file = false ->
   exit_status (outcome_of_run env) = Some 1)
  /\ (file_exists env (script_dir env) required_file = true ->
      match try_block_end env with
      | Shutdown => exit_status (outcome_of_run env) = Some 0
      | StopsWith KeyboardInterrupt => exit_status (outcome_of_run env) = Some 0
      | StopsWith (OSError _ _) => exit_status (outcome_of_run env) = Some 0
      | StopsWith (SystemExit code) => exit_status (outcome_of_run env) = Some code
      | StopsWith (ValueError _) | StopsWith (OverflowError _)
      | StopsWith (OtherException _ _) =>
          exit_status (outcome_of_run env) = Some 1
      | Never => exit_status (outcome_of_run env) = None
      end).
Proof.
  unfold try_block_end. rewrite port_of_run_eq, outcome_of_run_eq.
  unfold main_result. split; intros F; rewrite F; [reflexivity|].
  destruct (bind_failure env "" (port_after_args env)) as [e|].
  - now destruct e.
  - unfold ending. destruct (serve_end env) as [e| | ]; [now destruct e | reflexivity..].
Qed.

Lemma exit_status_by_ending_witness :
  file_exists (Scenario.port_taken 98 (Scenario.laptop []))
    (script_dir (Scenario.port_taken 98 (Scenario.laptop []))) required_file = true
  /\ exit_status (outcome_of_run (Scenario.port_taken 98 (Scenario.laptop []))) = Some 0.
Proof.
  split; [reflexivity|].
  exact (proj2 (exit_status_by_ending (Scenario.port_taken 98 (Scenario.laptop [])))
           eq_refl).
Defined.

(** *** The working directory *)

(** The same environment, the script being called from [dir]. *)
Definition called_from (dir : string) (env : Env) : Env :=
  {| argv := argv env; int_builtin := int_builtin env;
     invocation_dir := dir; script_dir := script_dir env;
     file_exists := file_exists env;
     EADDRINUSE := EADDRINUSE env; os_bind := os_bind env;
     webbrowser_open := webbrowser_open env; traffic := traffic env;
     library_routine := library_routine env; serve_end := serve_end env |}.

(** C7.  The change to the script's directory comes first in [main]:
    nothing but the port warning precedes it, so the existence check, the
    bind and every response come after it; the check and the file lookups
    of every response are made in the script's directory, which is the
    working directory at the end; and the whole run (result, port, log)
    is the same from whatever directory the script is called. *)
Theorem chdir_precedes_and_decides (env : Env) :
  (exists before after,
      log_of_run env = before ++ Chdir (script_dir env) :: after
      /\ (before = [] \/ before = [warning])
      /\ (forall dir name, In (PathExists dir name) after ->
           dir = script_dir env /\ name = required_file)
      /\ (forall dir directory req out, In (Response dir directory req out) after ->
           dir = script_dir env /\ directory = DIRECTORY))
  /\ cwd (snd (run env)) = script_dir env
  /\ (forall dir, run (called_from dir env) = run env).
Proof.
  split; [|split].
  - destruct (main_starts_with_chdir env (port_after_args env)) as (after & E).
    exists (log_after_args env), after.
    rewrite log_of_run_eq, E. split; [reflexivity|].
    split; [apply log_after_args_cases|].
    assert (Sub : forall ev, In ev after ->
                             In ev (snd (main_result env (port_after_args env)))).
    { intros ev H. rewrite E. now right. }
    split.
    + intros dir name H. apply Sub, main_events in H.
      destruct H as [(t & H & _)|[H|[H|[(H & _)|[(H & _)|[H|[(r & H & _)|H]]]]]]];
        try discriminate H.
      injection H as -> ->. now split.
    + intros dir directory req out H. apply Sub, main_events in H.
      destruct H as [(t & H & _)|[H|[H|[(H & _)|[(H & _)|[H|[(r & H & _)|H]]]]]]];
        try discriminate H.
      unfold response_to in H. injection H as -> -> _ _. now split.
  - now rewrite run_eq.
  - intros dir. now rewrite !run_eq.
Qed.

(** *** Serving *)

(** C8.  Ctrl+C while serving: the [KeyboardInterrupt] that leaves
    [serve_forever] is caught, so [main] returns instead of raising; the
    server is closed, the farewell is the last thing printed, and the exit
    status is 0. *)
Theorem interrupt_while_serving_is_caught (env : Env) :
  file_exists env (script_dir env) required_file = true ->
  bind_failure env "" (port_of_run env) = None ->
  serve_end env = StopsWith KeyboardInterrupt ->
  fst (run env) = Val tt
  /\ outcome_of_run env = Exit 0
  /\ exit_status (outcome_of_run env) = Some 0
  /\ exists before,
       log_of_run env = before ++ [ServerClose; farewell]
       /\ In ServeForever before.
Proof.
  rewrite port_of_run_eq, outcome_of_run_eq, log_of_run_eq, run_eq. intros F B S.
  unfold main_result, ending. rewrite F, B, S. cbn [fst snd except_clauses outcome_of exit_status].
  repeat split.
  exists (log_after_args env ++
          [ Chdir (script_dir env); PathExists (script_dir env) required_file;
            Bind "" (port_after_args env) ] ++ served env (port_after_args env)).
  split.
  - now rewrite <- !app_assoc.
  - apply in_or_app. right. apply in_or_app. right. unfold served.
    apply in_or_app. right. apply in_or_app. left. cbn [In]. auto.
Qed.

Lemma interrupt_while_serving_is_caught_witness :
  (file_exists (Scenario.laptop []) (script_dir (Scenario.laptop [])) required_file = true
   /\ bind_failure (Scenario.laptop []) "" (port_of_run (Scenario.laptop [])) = None
   /\ serve_end (Scenario.laptop []) = StopsWith KeyboardInterrupt)
  /\ exit_status (outcome_of_run (Scenario.laptop [])) = Some 0.
Proof.
  split; [repeat split|].
  exact (proj1 (proj2 (proj2 (interrupt_while_serving_is_caught (Scenario.laptop [])
                                eq_refl eq_refl eq_refl)))).
Defined.

(** The same environment with a browser call that returns [launched]. *)
Definition browser_returns (launched : bool) (env : Env) : Env :=
  {| argv := argv env; int_builtin := int_builtin env;
     invocation_dir := invocation_dir env; script_dir := script_dir env;
     file_exists := file_exists env;
     EADDRINUSE := EADDRINUSE env; os_bind := os_bind env;
     webbrowser_open := fun _ => Returned launched; traffic := traffic env;
     library_routine := library_routine env; serve_end := serve_end env |}.

(** C9, as stated, fails: [webbrowser.open] reports a launch that failed by
    returning [False], and line 54 drops the value.  Nothing is caught, the
    line printed is the one of a launch under way, and no line asks to open
    the URL by hand; the server serves all the same. *)
Lemma failed_launch_returning_false_is_not_reported :
  webbrowser_open (browser_returns false (Scenario.laptop [])) (wallet_url 8000)
  = Returned false
  /\ log_of_run (browser_returns false (Scenario.laptop []))
     = [ Chdir Scenario.scripts;
         PathExists Scenario.scripts "wallet-approval.html";
         Bind "" 8000 ]
       ++ banner Scenario.scripts 8000
       ++ [ BrowserOpen "http://localhost:8000/wallet-approval.html";
            Print "🌐 Opening browser automatically...";
            separator;
            ServeForever ]
       ++ map (response_to (Scenario.laptop []) Scenario.scripts)
              (traffic (Scenario.laptop []))
       ++ [ServerClose; farewell]
  /\ existsb (fun ev => match ev with
                        | Print text => Py.contains "manually open" text
                        | _ => false
                        end)
       (log_of_run (browser_returns false (Scenario.laptop []))) = false
  /\ existsb (fun ev => match ev with
                        | Print text => Py.contains "manually open" text
                        | _ => false
                        end)
       (log_of_run
          (Scenario.no_browser (OtherException "webbrowser.Error" "no browser")
             (Scenario.laptop []))) = true.
Proof. repeat split. Qed.

(** C9, amended.  In a run that reaches the serving stage (file present,
    bind succeeded), the browser call is followed by one printed line, the
    separator and [serve_forever], which then answers all the traffic,
    whatever the browser call did; when the call raised, whichever the
    exception, it is caught and the line is the request to open the URL by
    hand. *)
Theorem browser_launch_is_best_effort (env : Env) :
  file_exists env (script_dir env) required_file = true ->
  bind_failure env "" (port_of_run env) = None ->
  exists before line after,
    log_of_run env =
    before
    ++ [ BrowserOpen (wallet_url (port_of_run env)); Print line; separator; ServeForever ]
    ++ map (response_to env (script_dir env)) (traffic env)
    ++ after
    /\ (forall e,
          webbrowser_open env (wallet_url (port_of_run env)) = Raised e ->
          line = ("⚠️  Please manually open: " ++ wallet_url (port_of_run env))%string).
Proof.
  rewrite port_of_run_eq, log_of_run_eq. intros F B.
  unfold main_result. rewrite F, B. cbn [snd]. unfold served, browser_line.
  exists (log_after_args env ++
          [ Chdir (script_dir env); PathExists (script_dir env) required_file;
            Bind "" (port_after_args env) ] ++ banner (script_dir env) (port_after_args env)).
  destruct (webbrowser_open env (wallet_url (port_after_args env))) as [launched|e0];
    eexists; exists (snd (ending env (port_after_args env)));
    (split; [rewrite <- !app_assoc; reflexivity|]).
  - discriminate.
  - reflexivity.
Qed.

Lemma browser_launch_is_best_effort_witness :
  (file_exists
     (Scenario.no_browser (OtherException "webbrowser.Error" "could not locate runnable browser")
        (Scenario.laptop []))
     Scenario.scripts required_file = true
   /\ bind_failure
        (Scenario.no_browser (OtherException "webbrowser.Error" "could not locate runnable browser")
           (Scenario.laptop []))
        "" 8000 = None)
  /\ exists before line after,
       log_of_run
         (Scenario.no_browser (OtherException "webbrowser.Error" "could not locate runnable browser")
            (Scenario.laptop []))
       = before
         ++ [ BrowserOpen (wallet_url 8000); Print line; separator; ServeForever ]
         ++ map (response_to (Scenario.laptop []) Scenario.scripts)
                (traffic (Scenario.laptop []))
         ++ after
       /\ (forall e,
             Raised (OtherException "webbrowser.Error" "could not locate runnable browser")
             = Raised e ->
             line = ("⚠️  Please manually open: " ++ wallet_url 8000)%string).
Proof.
  split; [repeat split|].
  exact (browser_launch_is_best_effort
           (Scenario.no_browser
              (OtherException "webbrowser.Error" "could not locate runnable browser")
              (Scenario.laptop []))
           eq_refl eq_refl).
Defined.

(** A browser call that returns, even with [False], is not an exception:
    the script prints the same line as after a successful launch. *)
Lemma browser_returning_prints_opening (env : Env) (launched : bool) :
  file_exists env (script_dir env) required_file = true ->
  bind_failure env "" (port_of_run env) = None ->
  webbrowser_open env (wallet_url (port_of_run env)) = Returned launched ->
  In (Print "🌐 Opening browser automatically...") (log_of_run env).
Proof.
  rewrite port_of_run_eq, log_of_run_eq. intros F B W.
  unfold main_result. rewrite F, B. cbn [snd]. unfold served, browser_line.
  rewrite W. apply in_or_app. right. apply in_or_app. right.
  apply in_or_app. left. apply in_or_app. right.
  apply in_or_app. left. cbn [In]. auto.
Qed.

(** *** Responses *)

Lemma responses_of_run (env : Env) dir directory req out :
  In (Response dir directory req out) (log_of_run env) ->
  out = Http.respond Http.Handler (library_routine env dir directory req).
Proof.
  rewrite log_of_run_eq. intros H. apply in_app_or in H as [H|H].
  - destruct (log_after_args_cases env) as [E|E]; rewrite E in H;
      unfold warning in H; in_cases; discriminate.
  - apply main_events in H.
    destruct H as [(t & H & _)|[H|[H|[(H & _)|[(H & _)|[H|[(r & H & _)|H]]]]]]];
      try discriminate H.
    unfold response_to in H. now injection H as -> -> -> ->.
Qed.

(** C1.  In every response the server produces, for whatever request
    (method, path, version) and whatever the inherited handler does for it,
    each header finalization is reached directly after the three CORS
    headers were sent, in the order of the source. *)
Theorem cors_headers_precede_header_end (env : Env) dir directory req out :
  In (Response dir directory req out) (log_of_run env) ->
  Http.cors_before_each_end out.
Proof.
  intros H. apply responses_of_run in H as ->.
  apply HttpFacts.cors_before_each_end_respond.
Qed.

Lemma cors_headers_precede_header_end_witness :
  In (Response Scenario.scripts "." (Scenario.get "/wallet-approval.html")
        [ Http.StatusLine 200 "OK";
          Http.HeaderLine "Content-type" "text/html";
          Http.HeaderLine "Access-Control-Allow-Origin" "*";
          Http.HeaderLine "Access-Control-Allow-Methods" "GET, POST, OPTIONS";
          Http.HeaderLine "Access-Control-Allow-Headers" "Content-Type";
          Http.HeadersEnd;
          Http.Body "<html></html>" ])
     (log_of_run (Scenario.laptop []))
  /\ Http.cors_before_each_end
       [ Http.StatusLine 200 "OK";
         Http.HeaderLine "Content-type" "text/html";
         Http.HeaderLine "Access-Control-Allow-Origin" "*";
         Http.HeaderLine "Access-Control-Allow-Methods" "GET, POST, OPTIONS";
         Http.HeaderLine "Access-Control-Allow-Headers" "Content-Type";
         Http.HeadersEnd;
         Http.Body "<html></html>" ].
Proof.
  assert (H : In (Response Scenario.scripts "." (Scenario.get "/wallet-approval.html")
                    [ Http.StatusLine 200 "OK";
                      Http.HeaderLine "Content-type" "text/html";
                      Http.HeaderLine "Access-Control-Allow-Origin" "*";
                      Http.HeaderLine "Access-Control-Allow-Methods" "GET, POST, OPTIONS";
                      Http.HeaderLine "Access-Control-Allow-Headers" "Content-Type";
                      Http.HeadersEnd;
                      Http.Body "<html></html>" ])
                 (log_of_run (Scenario.laptop []))).
  { vm_compute. repeat (first [left; reflexivity | right]). }
  exact (conj H (cors_headers_precede_header_end (Scenario.laptop []) _ _ _ _ H)).
Defined.

(** C10.  Every header block the server finalizes, in every response,
    ends with the three CORS headers, whatever its status line: a 404 and
    a directory listing carry them like a served file does, because
    [end_headers] adds them without looking at the response. *)
Theorem cors_headers_in_every_header_block (env : Env) dir directory req out
    (status : option (Z * string)) (headers : list (string * string)) :
  In (Response dir directory req out) (log_of_run env) ->
  In (status, headers) (Http.header_blocks out) ->
  exists others, headers = others ++ Http.cors_pairs.
Proof.
  intros H B. apply responses_of_run in H as ->.
  rewrite HttpFacts.respond_Handler in B.
  now apply HttpFacts.blocks_of_Handler in B.
Qed.

Lemma cors_headers_in_every_header_block_witness :
  In (Response Scenario.scripts "." (Scenario.get "/missing.js")
        [ Http.StatusLine 404 "File not found";
          Http.HeaderLine "Connection" "close";
          Http.HeaderLine "Content-Type" "text/html;charset=utf-8";
          Http.HeaderLine "Access-Control-Allow-Origin" "*";
          Http.HeaderLine "Access-Control-Allow-Methods" "GET, POST, OPTIONS";
          Http.HeaderLine "Access-Control-Allow-Headers" "Content-Type";
          Http.HeadersEnd;
          Http.Body "Error response" ])
     (log_of_run (Scenario.laptop []))
  /\ exists others,
       [ ("Connection", "close"); ("Content-Type", "text/html;charset=utf-8");
         ("Access-Control-Allow-Origin", "*");
         ("Access-Control-Allow-Methods", "GET, POST, OPTIONS");
         ("Access-Control-Allow-Headers", "Content-Type") ]
       = others ++ Http.cors_pairs.
Proof.
  assert (H : In (Response Scenario.scripts "." (Scenario.get "/missing.js")
                    [ Http.StatusLine 404 "File not found";
                      Http.HeaderLine "Connection" "close";
                      Http.HeaderLine "Content-Type" "text/html;charset=utf-8";
                      Http.HeaderLine "Access-Control-Allow-Origin" "*";
                      Http.HeaderLine "Access-Control-Allow-Methods" "GET, POST, OPTIONS";
                      Http.HeaderLine "Access-Control-Allow-Headers" "Content-Type";
                      Http.HeadersEnd;
                      Http.Body "Error response" ])
                 (log_of_run (Scenario.laptop []))).
  { vm_compute. repeat (first [left; reflexivity | right]). }
  exact (conj H (cors_headers_in_every_header_block (Scenario.laptop []) _ _ _ _
                   (Some (404, "File not found")) _ H (or_introl eq_refl))).
Defined.

End ServeSpec.

(** * Further behaviour of the script *)

(** ** The override against the inherited handler *)

Module HandlerBehaviour.
Import Http HttpFacts.

(** What one call on [self] adds when the instance is of the inherited
    class. *)
Definition inherited_added (c : self_call) : sent :=
  match c with
  | send_response_only code message => [StatusLine code message]
  | send_header keyword value => [HeaderLine keyword value]
  | end_headers => [HeadersEnd]
  | wfile_write data => [Body data]
  end.

Lemma perform_inherited (r : routine) :
  forall self,
    perform SimpleHTTPRequestHandler r self = self ++ flat_map inherited_added r.
Proof.
  induction r as [|c r IH]; intros self; cbn [perform flat_map].
  - now rewrite app_nil_r.
  - rewrite IH.
    destruct c; cbn [dispatch SimpleHTTPRequestHandler m_send_header m_end_headers];
      unfold Base.send_header, Base.end_headers; now rewrite <- app_assoc.
Qed.

(** The three lines put in front of every header finalization; everything
    else stays where it is. *)
Definition insert_cors (s : sent) : sent :=
  flat_map (fun c => match c with
                     | HeadersEnd => cors_lines ++ [HeadersEnd]
                     | _ => [c]
                     end) s.

(** X1.  [Handler] changes a response of the inherited class in one way
    only: the three CORS lines are inserted before each header finalization.
    Status lines, the headers the library sends, bodies and their order are
    kept; nothing is removed, and a CORS header the library sent itself
    stays beside the added one. *)
Theorem handler_only_inserts_cors (r : routine) :
  respond Handler r = insert_cors (respond SimpleHTTPRequestHandler r).
Proof.
  rewrite respond_Handler. unfold respond. rewrite perform_inherited. cbn [app].
  induction r as [|c r IH]; [reflexivity|].
  cbn [flat_map]. unfold insert_cors in *. rewrite flat_map_app, <- IH.
  now destruct c.
Qed.

(** X2.  A routine that never calls [end_headers] gets no CORS header: the
    response of [Handler] is then the response of the inherited class. *)
Theorem no_finalization_no_cors (r : routine) :
  ~ In end_headers r ->
  respond Handler r = respond SimpleHTTPRequestHandler r.
Proof.
  intros N. rewrite respond_Handler. unfold respond. rewrite perform_inherited.
  cbn [app]. induction r as [|c r IH]; [reflexivity|].
  cbn [flat_map]. rewrite IH by (intros H; apply N; now right).
  destruct c; try reflexivity. exfalso. apply N. now left.
Qed.

Lemma no_finalization_no_cors_witness :
  ~ In end_headers [send_response_only 200 "OK"; wfile_write "raw"]
  /\ respond Handler [send_response_only 200 "OK"; wfile_write "raw"]
     = [StatusLine 200 "OK"; Body "raw"].
Proof.
  assert (N : ~ In end_headers [send_response_only 200 "OK"; wfile_write "raw"]).
  { intros [H|[H|[]]]; discriminate H. }
  exact (conj N (no_finalization_no_cors _ N)).
Defined.

End HandlerBehaviour.

(** ** Effects of a run, counted and ordered *)

Module ServeBehaviour.
Import Serve ServeFacts.

Definition is_bind (ev : event) : bool :=
  match ev with Bind _ _ => true | _ => false end.

Definition is_browser_open (ev : event) : bool :=
  match ev with BrowserOpen _ => true | _ => false end.

Definition is_server_close (ev : event) : bool :=
  match ev with ServerClose => true | _ => false end.

(** How many events of a kind the log holds. *)
Definition count (p : event -> bool) (l : list event) : nat := length (filter p l).

(** The exception that leaves the [try] block of [main], if one does: the
    one the constructor of the server raised, or else the one that left
    [serve_forever]. *)
Definition raised_in_try (env : Env) : option exn :=
  match bind_failure env "" (port_of_run env) with
  | Some e => Some e
  | None =>
      match serve_end env with
      | StopsWith e => Some e
      | _ => None
      end
  end.

(** The same environment with another command line. *)
Definition with_argv (args : list string) (env : Env) : Env :=
  {| argv := args; int_builtin := int_builtin env;
     invocation_dir := invocation_dir env; script_dir := script_dir env;
     file_exists := file_exists env;
     EADDRINUSE := EADDRINUSE env; os_bind := os_bind env;
     webbrowser_open := webbrowser_open env; traffic := traffic env;
     library_routine := library_routine env; serve_end := serve_end env |}.

Lemma count_app (p : event -> bool) (a b : list event) :
  count p (a ++ b) = (count p a + count p b)%nat.
Proof. unfold count. now rewrite filter_app, length_app. Qed.

Lemma count_none (p : event -> bool) (l : list event) :
  (forall ev, In ev l -> p ev = false) -> count p l = 0%nat.
Proof.
  unfold count. induction l as [|ev l IH]; intros H; [reflexivity|].
  cbn [filter]. rewrite (H ev) by now left.
  apply IH. intros ev' Hin. apply H. now right.
Qed.

(** A kind of event that is neither a print nor a response. *)
Definition silent (p : event -> bool) : Prop :=
  (forall text, p (Print text) = false)
  /\ (forall dir directory req out, p (Response dir directory req out) = false).

Lemma count_after_args (p : event -> bool) (env : Env) :
  silent p -> count p (log_after_args env) = 0%nat.
Proof.
  intros [P _]. destruct (log_after_args_cases env) as [-> | ->]; [reflexivity|].
  unfold count, warning. cbn [filter]. now rewrite P.
Qed.

Lemma count_except_clauses (p : event -> bool) (port : Z) (e : exn) :
  silent p -> count p (snd (except_clauses port e)) = 0%nat.
Proof.
  intros [P _]. apply count_none. intros ev H.
  apply except_clauses_prints in H as (text & -> & _). apply P.
Qed.

Lemma count_banner (p : event -> bool) (dir : string) (port : Z) :
  silent p -> count p (banner dir port) = 0%nat.
Proof.
  intros [P _]. unfold count, banner. cbn [filter]. now rewrite !P.
Qed.

Lemma count_responses (p : event -> bool) (env : Env) (dir : string)
    (reqs : list Http.request) :
  silent p -> count p (map (response_to env dir) reqs) = 0%nat.
Proof.
  intros [_ R]. apply count_none. intros ev H.
  apply in_map_iff in H as (req & <- & _). apply R.
Qed.

Lemma browser_line_is_print (env : Env) (url : string) :
  exists text, browser_line env url = Print text.
Proof. unfold browser_line. destruct (webbrowser_open env url); eauto. Qed.

Lemma silent_is_bind : silent is_bind.
Proof. now split. Qed.

Lemma silent_is_browser_open : silent is_browser_open.
Proof. now split. Qed.

Lemma silent_is_server_close : silent is_server_close.
Proof. now split. Qed.

(** The log of a run whose [try] block is left by the exception [e]: up to
    the bind or up to the closing of the server, then whatever the [except]
    clauses print; the result is theirs. *)
Lemma run_left_by_exception (env : Env) (e : exn) :
  file_exists env (script_dir env) required_file = true ->
  raised_in_try env = Some e ->
  fst (run env) = fst (except_clauses (port_of_run env) e)
  /\ exists before last,
       log_of_run env = before ++ [last] ++ snd (except_clauses (port_of_run env) e)
       /\ (last = Bind "" (port_of_run env) /\ bind_failure env "" (port_of_run env) = Some e
           \/ last = ServerClose /\ In ServeForever before).
Proof.
  unfold raised_in_try. rewrite port_of_run_eq, log_of_run_eq, run_eq. cbn [fst].
  intros F R. unfold main_result. rewrite F.
  destruct (bind_failure env "" (port_after_args env)) as [e'|] eqn:B.
  - injection R as ->. cbn [fst snd]. split; [reflexivity|].
    exists (log_after_args env ++
            [Chdir (script_dir env); PathExists (script_dir env) required_file]),
           (Bind "" (port_after_args env)).
    split; [now rewrite <- !app_assoc | now left].
  - unfold ending. destruct (serve_end env) as [e'| | ]; try discriminate R.
    injection R as ->. cbn [fst snd]. split; [reflexivity|].
    exists (log_after_args env ++
            [ Chdir (script_dir env); PathExists (script_dir env) required_file;
              Bind "" (port_after_args env) ] ++ served env (port_after_args env)),
           ServerClose.
    split; [now rewrite <- !app_assoc|]. right. split; [reflexivity|].
    apply in_or_app. right. apply in_or_app. right. unfold served.
    apply in_or_app. right. apply in_or_app. left. cbn [In]. auto.
Qed.

Lemma count_served (p : event -> bool) (env : Env) (port : Z) :
  silent p ->
  count p (served env port) = count p [BrowserOpen (wallet_url port); ServeForever].
Proof.
  intros S. unfold served. rewrite !count_app, count_banner, count_responses by exact S.
  destruct (browser_line_is_print env (wallet_url port)) as (text & ->).
  destruct S as [P _]. unfold count, separator. cbn [filter]. rewrite !P.
  destruct (p (BrowserOpen (wallet_url port))), (p ServeForever); cbn [length]; lia.
Qed.

Lemma count_ending (p : event -> bool) (env : Env) (port : Z) :
  silent p ->
  count p (snd (ending env port)) =
  match serve_end env with
  | Never => 0%nat
  | _ => count p [ServerClose]
  end.
Proof.
  intros S. unfold ending. destruct (serve_end env) as [e| | ]; cbn [snd]; try reflexivity.
  change (ServerClose :: snd (except_clauses port e))
    with ([ServerClose] ++ snd (except_clauses port e)).
  rewrite count_app, count_except_clauses by exact S. lia.
Qed.

Lemma count_zero_not_in (p : event -> bool) (l : list event) (ev : event) :
  count p l = 0%nat -> In ev l -> p ev = false.
Proof.
  unfold count. induction l as [|x l IH]; intros C H; [destruct H|].
  cbn [filter] in C. destruct (p x) eqn:Px; [discriminate C|].
  destruct H as [<-|H]; [exact Px | now apply IH].
Qed.

(** *** The bind *)

(** X3.  The script never retries: a run makes exactly one bind attempt when
    the required page is present and none when it is missing, and an attempt
    is always at the wildcard address and the configured port. *)
Theorem exactly_one_bind_attempt (env : Env) :
  count is_bind (log_of_run env)
  = (if file_exists env (script_dir env) required_file then 1 else 0)%nat
  /\ (forall host port,
        In (Bind host port) (log_of_run env) ->
        host = "" /\ port = port_of_run env).
Proof.
  split.
  - rewrite log_of_run_eq, count_app, count_after_args by exact silent_is_bind.
    unfold main_result. destruct (file_exists env _ _); [|reflexivity].
    destruct (bind_failure env "" _); cbn [snd]; rewrite !count_app.
    + now rewrite count_except_clauses by exact silent_is_bind.
    + rewrite count_served, count_ending by exact silent_is_bind.
      now destruct (serve_end env).
  - rewrite port_of_run_eq, log_of_run_eq. intros host port H.
    apply in_app_or in H as [H|H].
    + destruct (log_after_args_cases env) as [E|E]; rewrite E in H;
        unfold warning in H; in_cases; discriminate.
    + apply main_events in H.
      destruct H as [(t & H & _)|[H|[H|[(H & _)|[(H & _)|[H|[(r & H & _)|H]]]]]]];
        try discriminate H.
      injection H as -> ->. now split.
Qed.

(** *** The exceptions that leave the [try] block *)

Definition with_serve_end (stop : serve_stop) (env : Env) : Env :=
  {| argv := argv env; int_builtin := int_builtin env;
     invocation_dir := invocation_dir env; script_dir := script_dir env;
     file_exists := file_exists env;
     EADDRINUSE := EADDRINUSE env; os_bind := os_bind env;
     webbrowser_open := webbrowser_open env; traffic := traffic env;
     library_routine := library_routine env; serve_end := stop |}.

(** X4.  An [OSError] that leaves the [try] block with an error number other
    than 48 (or with none), whether the constructor raised it or
    [serve_forever] did, is reported by one last line made of the fixed text
    and [str(e)]; [main] returns and the exit status is 0. *)
Theorem os_error_other_than_48_is_reported (env : Env) (errno : option Z) (msg : string) :
  file_exists env (script_dir env) required_file = true ->
  raised_in_try env = Some (OSError errno msg) ->
  errno_is errno 48 = false ->
  fst (run env) = Val tt
  /\ exit_status (outcome_of_run env) = Some 0
  /\ exists before,
       log_of_run env =
       before ++ [Print ("❌ Error starting server: " ++ exn_str (OSError errno msg))%string].
Proof.
  intros F R N. destruct (run_left_by_exception env _ F R) as (V & before & last & L & _).
  cbn [except_clauses fst snd] in V, L. rewrite N in L.
  split; [exact V|]. split; [unfold outcome_of_run; now rewrite V|].
  exists (before ++ [last]). now rewrite <- app_assoc.
Qed.

Lemma os_error_other_than_48_is_reported_witness :
  (file_exists (with_serve_end (StopsWith (OSError None "timed out")) (Scenario.laptop []))
     Scenario.scripts required_file = true
   /\ raised_in_try (with_serve_end (StopsWith (OSError None "timed out")) (Scenario.laptop []))
      = Some (OSError None "timed out")
   /\ errno_is None 48 = false)
  /\ exists before,
       log_of_run (with_serve_end (StopsWith (OSError None "timed out")) (Scenario.laptop []))
       = before ++ [Print "❌ Error starting server: timed out"].
Proof.
  split; [repeat split|].
  exact (proj2 (proj2 (os_error_other_than_48_is_reported
                         (with_serve_end (StopsWith (OSError None "timed out"))
                            (Scenario.laptop []))
                         None "timed out" eq_refl eq_refl eq_refl))).
Defined.

(** X5.  An [OSError] with error number 48 that leaves the [try] block is
    answered by the two lines about the port, the second naming [PORT + 1];
    this also happens when the error comes out of [serve_forever], long after
    the bind succeeded.  [main] returns and the exit status is 0. *)
Theorem os_error_48_names_next_port (env : Env) (msg : string) :
  file_exists env (script_dir env) required_file = true ->
  raised_in_try env = Some (OSError (Some 48) msg) ->
  fst (run env) = Val tt
  /\ exit_status (outcome_of_run env) = Some 0
  /\ exists before,
       log_of_run env =
       before ++
       [ Print ("❌ Port " ++ Py.str (port_of_run env)
                 ++ " is already in use. Try a different port:")%string;
         Print ("   python3 serve.py " ++ Py.str (port_of_run env + 1))%string ].
Proof.
  intros F R. destruct (run_left_by_exception env _ F R) as (V & before & last & L & _).
  cbn [except_clauses fst snd errno_is] in V, L. rewrite Z.eqb_refl in L.
  split; [exact V|]. split; [unfold outcome_of_run; now rewrite V|].
  exists (before ++ [last]). now rewrite <- app_assoc.
Qed.

Lemma os_error_48_names_next_port_witness :
  (file_exists (with_serve_end (StopsWith (OSError (Some 48) "late")) (Scenario.laptop ["9000"]))
     Scenario.scripts required_file = true
   /\ raised_in_try (with_serve_end (StopsWith (OSError (Some 48) "late"))
                       (Scenario.laptop ["9000"]))
      = Some (OSError (Some 48) "late"))
  /\ exists before,
       log_of_run (with_serve_end (StopsWith (OSError (Some 48) "late"))
                     (Scenario.laptop ["9000"]))
       = before ++
         [ Print "❌ Port 9000 is already in use. Try a different port:";
           Print "   python3 serve.py 9001" ].
Proof.
  split; [repeat split|].
  exact (proj2 (proj2 (os_error_48_names_next_port
                         (with_serve_end (StopsWith (OSError (Some 48) "late"))
                            (Scenario.laptop ["9000"]))
                         "late" eq_refl eq_refl))).
Defined.

(** The two [except] clauses of [main]. *)
Definition caught_by_main (e : exn) : bool :=
  match e with
  | KeyboardInterrupt | OSError _ _ => true
  | _ => false
  end.

(** X6.  Any other exception that leaves the [try] block passes through
    [main] unchanged: the run ends with that exception and nothing is printed
    for it, the last effect being the bind attempt or the closing of the
    server. *)
Theorem other_exception_leaves_main (env : Env) (e : exn) :
  file_exists env (script_dir env) required_file = true ->
  raised_in_try env = Some e ->
  caught_by_main e = false ->
  fst (run env) = Exc e
  /\ exists before last,
       log_of_run env = before ++ [last]
       /\ (last = Bind "" (port_of_run env) \/ last = ServerClose).
Proof.
  intros F R N. destruct (run_left_by_exception env _ F R) as (V & before & last & L & K).
  assert (E : except_clauses (port_of_run env) e = (Exc e, [])).
  { destruct e; try discriminate N; reflexivity. }
  rewrite E in V, L. cbn [fst snd] in V, L.
  split; [exact V|]. exists before, last. split; [exact L|].
  destruct K as [(K & _)|(K & _)]; auto.
Qed.

Lemma other_exception_leaves_main_witness :
  (file_exists (Scenario.laptop ["70000"]) Scenario.scripts required_file = true
   /\ raised_in_try (Scenario.laptop ["70000"])
      = Some (OverflowError "bind(): port must be 0-65535.")
   /\ caught_by_main (OverflowError "bind(): port must be 0-65535.") = false)
  /\ fst (run (Scenario.laptop ["70000"]))
     = Exc (OverflowError "bind(): port must be 0-65535.").
Proof.
  split; [repeat split|].
  exact (proj1 (other_exception_leaves_main (Scenario.laptop ["70000"])
                  (OverflowError "bind(): port must be 0-65535.")
                  eq_refl eq_refl eq_refl)).
Defined.

(** *** The server and the browser *)

(** X7.  The exit of the [with] block ([httpd.__exit__], which closes the
    server) runs exactly once in a run that entered the block and left it
    (page present, constructor succeeded, serving ended by an exception or
    by returning), and never in a run that did not enter the block or never
    leaves it.  It comes after [serve_forever] was entered, and only prints
    follow it.  What the constructor does with its socket when it fails is
    inside the library and is no effect of the script; [ServerClose] records
    the exit of the block only. *)
Theorem with_block_left_once_after_serving (env : Env) :
  count is_server_close (log_of_run env)
  = (if file_exists env (script_dir env) required_file then
       match bind_failure env "" (port_of_run env) with
       | Some _ => 0
       | None => match serve_end env with Never => 0 | _ => 1 end
       end
     else 0)%nat
  /\ (In ServerClose (log_of_run env) ->
      exists before after,
        log_of_run env = before ++ ServerClose :: after
        /\ In ServeForever before
        /\ (forall ev, In ev after -> exists text, ev = Print text)).
Proof.
  assert (C : count is_server_close (log_of_run env)
              = (if file_exists env (script_dir env) required_file then
                   match bind_failure env "" (port_of_run env) with
                   | Some _ => 0
                   | None => match serve_end env with Never => 0 | _ => 1 end
                   end
                 else 0)%nat).
  { rewrite port_of_run_eq, log_of_run_eq, count_app, count_after_args
      by exact silent_is_server_close.
    unfold main_result. destruct (file_exists env _ _); [|reflexivity].
    destruct (bind_failure env "" _); cbn [snd]; rewrite !count_app.
    - now rewrite count_except_clauses by exact silent_is_server_close.
    - rewrite count_served, count_ending by exact silent_is_server_close.
      now destruct (serve_end env). }
  split; [exact C|]. intros H.
  assert (N : count is_server_close (log_of_run env) <> 0%nat).
  { intros Z. now pose proof (count_zero_not_in _ _ _ Z H). }
  rewrite C, port_of_run_eq in N. clear C H.
  rewrite log_of_run_eq. unfold main_result.
  destruct (file_exists env _ _); [|now contradiction N].
  destruct (bind_failure env "" _); [now contradiction N|].
  cbn [snd]. unfold ending.
  assert (S : In ServeForever
                (log_after_args env ++
                 [ Chdir (script_dir env); PathExists (script_dir env) required_file;
                   Bind "" (port_after_args env) ] ++ served env (port_after_args env))).
  { apply in_or_app. right. apply in_or_app. right. unfold served.
    apply in_or_app. right. apply in_or_app. left. cbn [In]. auto. }
  destruct (serve_end env) as [e| | ]; cbn [snd].
  - eexists _, (snd (except_clauses (port_after_args env) e)).
    split; [|split; [exact S|]].
    + now rewrite <- !app_assoc.
    + intros ev Hev. apply except_clauses_prints in Hev as (text & -> & _). eauto.
  - eexists _, []. split; [|split; [exact S|intros ev []]].
    now rewrite <- !app_assoc.
  - now contradiction N.
Qed.

(** X8.  The browser is opened exactly once in a run whose bind succeeded
    and never in any other run, and always at the wallet URL of the
    configured port. *)
Theorem browser_opened_once_after_bind (env : Env) :
  count is_browser_open (log_of_run env)
  = (if file_exists env (script_dir env) required_file then
       match bind_failure env "" (port_of_run env) with
       | Some _ => 0
       | None => 1
       end
     else 0)%nat
  /\ (forall url,
        In (BrowserOpen url) (log_of_run env) -> url = wallet_url (port_of_run env)).
Proof.
  rewrite port_of_run_eq, log_of_run_eq. split.
  - rewrite count_app, count_after_args by exact silent_is_browser_open.
    unfold main_result. destruct (file_exists env _ _); [|reflexivity].
    destruct (bind_failure env "" _); cbn [snd]; rewrite !count_app.
    + now rewrite count_except_clauses by exact silent_is_browser_open.
    + rewrite count_served, count_ending by exact silent_is_browser_open.
      now destruct (serve_end env).
  - intros url H. apply in_app_or in H as [H|H].
    + destruct (log_after_args_cases env) as [E|E]; rewrite E in H;
        unfold warning in H; in_cases; discriminate.
    + apply main_events in H.
      destruct H as [(t & H & _)|[H|[H|[(H & _)|[(H & _)|[H|[(r & H & _)|H]]]]]]];
        try discriminate H.
      now injection H.
Qed.

(** *** The command line *)

(** X9.  Of the arguments only [sys.argv[1]] is read: whatever follows the
    first argument changes nothing in the run. *)
Theorem later_arguments_are_ignored (env : Env) (prog a : string)
    (rest rest' : list string) :
  run (with_argv (prog :: a :: rest) env) = run (with_argv (prog :: a :: rest') env).
Proof. now rewrite !run_eq. Qed.

(** X10.  An argument that [int] rejects costs one warning line and nothing
    else: after that line the run is the run without any argument, with the
    same result, the same port and the same effects. *)
Theorem rejected_argument_runs_as_no_argument (env : Env) (prog a : string)
    (rest : list string) :
  int_builtin env a = None ->
  fst (run (with_argv (prog :: a :: rest) env)) = fst (run (with_argv [prog] env))
  /\ port_of_run (with_argv (prog :: a :: rest) env) = port_of_run (with_argv [prog] env)
  /\ log_of_run (with_argv (prog :: a :: rest) env)
     = warning :: log_of_run (with_argv [prog] env).
Proof.
  intros N.
  assert (P : port_after_args (with_argv (prog :: a :: rest) env) = default_PORT).
  { unfold port_after_args. cbn [with_argv argv int_builtin nth length Nat.ltb Nat.leb].
    now rewrite N. }
  assert (W : log_after_args (with_argv (prog :: a :: rest) env) = [warning]).
  { unfold log_after_args. cbn [with_argv argv int_builtin nth length Nat.ltb Nat.leb].
    now rewrite N. }
  rewrite !port_of_run_eq, !log_of_run_eq, !run_eq, P, W. cbn [fst].
  repeat split.
Qed.

Lemma rejected_argument_runs_as_no_argument_witness :
  int_builtin (Scenario.laptop []) "80a" = None
  /\ log_of_run (with_argv ["serve.py"; "80a"] (Scenario.laptop []))
     = warning :: log_of_run (with_argv ["serve.py"] (Scenario.laptop [])).
Proof.
  split; [reflexivity|].
  exact (proj2 (proj2 (rejected_argument_runs_as_no_argument (Scenario.laptop [])
                         "serve.py" "80a" [] eq_refl))).
Defined.

(** *** The farewell *)

(** The first two characters of a printed line. *)
Definition head2 (ev : event) : option (ascii * ascii) :=
  match ev with
  | Print (String c1 (String c2 _)) => Some (c1, c2)
  | _ => None
  end.

Ltac not_farewell H :=
  first [ discriminate H
        | apply (f_equal head2) in H; cbn in H; discriminate H ].

Lemma farewell_in_except_clauses (port : Z) (e : exn) :
  In farewell (snd (except_clauses port e)) -> e = KeyboardInterrupt.
Proof.
  unfold except_clauses.
  destruct e as [ | | |errno msg| | ]; cbn [snd]; try reflexivity; try (now intros []).
  destruct (errno_is errno 48); intros H; in_cases; not_farewell H.
Qed.

(** X11.  The farewell is printed exactly when a [KeyboardInterrupt] leaves
    the [try] block of a run that passed the page check: when Ctrl+C stops
    the serving, and also when it arrives while the server is being
    constructed. *)
Theorem farewell_exactly_on_interrupt (env : Env) :
  In farewell (log_of_run env)
  <-> file_exists env (script_dir env) required_file = true
      /\ raised_in_try env = Some KeyboardInterrupt.
Proof.
  split.
  - unfold raised_in_try. rewrite port_of_run_eq, log_of_run_eq. intros H.
    apply in_app_or in H as [H|H].
    { destruct (log_after_args_cases env) as [E|E]; rewrite E in H;
        unfold warning in H; in_cases; not_farewell H. }
    revert H. unfold main_result.
    destruct (file_exists env _ _);
      [|intros H; cbn [snd] in H; in_cases; not_farewell H].
    intros H. split; [reflexivity|].
    destruct (bind_failure env "" _) as [e|]; cbn [snd] in H.
    + apply in_app_or in H as [H|H]; [in_cases; discriminate H|].
      now apply farewell_in_except_clauses in H as ->.
    + apply in_app_or in H as [H|H]; [in_cases; discriminate H|].
      apply in_app_or in H as [H|H].
      * exfalso. unfold served, banner, separator in H.
        apply in_app_or in H as [H|H]; [in_cases; not_farewell H|].
        apply in_app_or in H as [H|H].
        { destruct H as [H|[H|[H|[H|[]]]]]; try discriminate H.
          unfold browser_line in H. destruct (webbrowser_open env _); not_farewell H. }
        apply in_map_iff in H as (req & H & _). discriminate H.
      * unfold ending in *. destruct (serve_end env) as [e| | ]; cbn [snd] in H.
        { destruct H as [H|H]; [discriminate H|].
          now apply farewell_in_except_clauses in H as ->. }
        { destruct H as [H|[]]. discriminate H. }
        { destruct H. }
  - intros (F & R).
    destruct (run_left_by_exception env _ F R) as (_ & before & last & L & _).
    rewrite L. cbn [except_clauses snd]. apply in_or_app. right. right. now left.
Qed.

Lemma farewell_exactly_on_interrupt_witness :
  In farewell (log_of_run (Scenario.laptop []))
  /\ raised_in_try (Scenario.laptop []) = Some KeyboardInterrupt.
Proof.
  assert (H : file_exists (Scenario.laptop []) (script_dir (Scenario.laptop [])) required_file
              = true
              /\ raised_in_try (Scenario.laptop []) = Some KeyboardInterrupt)
    by (split; reflexivity).
  exact (conj (proj2 (farewell_exactly_on_interrupt (Scenario.laptop [])) H) (proj2 H)).
Defined.

End ServeBehaviour.
